(** * dataset.py: the generator of synthetic user sessions

    A shallow embedding of [dataset.py] and of the parts of the Python
    library it calls ([str] formatting, [json.dumps], [datetime],
    [random]), followed by the properties of the generated file.

    Conventions.
    - A Python [str] is the list of its Unicode code points ([pystr]).
    - A Python [int] is a [Z]; a code point is an [N].
    - The script reads two things from its environment, the wall clock and
      the state of the [random] module; both live in [World], next to the
      file system and the standard output the script writes to. *)

From Stdlib Require Import ZArith NArith Ascii String.
From stdpp Require Import base list list_numbers option strings gmap.

Local Open Scope Z_scope.

(** ** Python strings *)

Abbreviation pystr := (list N) (only parsing).

(** A literal of ASCII characters. *)
Definition lit (s : string) : pystr :=
  N_of_ascii <$> list_ascii_of_string s.

(** [sep.join(xs)] *)
Fixpoint str_join (sep : pystr) (xs : list pystr) : pystr :=
  match xs with
  | [] => []
  | [x] => x
  | x :: rest => x ++ sep ++ str_join sep rest
  end.

(** [s.split(c)] for a separator [c] of one character. *)
Fixpoint str_split (c : N) (s : pystr) : list pystr :=
  match s with
  | [] => [[]]
  | x :: s' =>
      if (x =? c)%N then [] :: str_split c s'
      else match str_split c s' with
           | [] => [[x]]
           | h :: t => (x :: h) :: t
           end
  end.

(** [s.count(c)] for one character. *)
Definition str_count (c : N) (s : pystr) : nat :=
  length (filter (λ x, x = c) s).

(** [s.endswith(c)] for one character. *)
Definition str_endswith (c : N) (s : pystr) : bool :=
  match last s with
  | Some x => (x =? c)%N
  | None => false
  end.

(** *** Integer formatting *)

Fixpoint uint_codes (d : Decimal.uint) : pystr :=
  match d with
  | Decimal.Nil => []
  | Decimal.D0 d => 48%N :: uint_codes d
  | Decimal.D1 d => 49%N :: uint_codes d
  | Decimal.D2 d => 50%N :: uint_codes d
  | Decimal.D3 d => 51%N :: uint_codes d
  | Decimal.D4 d => 52%N :: uint_codes d
  | Decimal.D5 d => 53%N :: uint_codes d
  | Decimal.D6 d => 54%N :: uint_codes d
  | Decimal.D7 d => 55%N :: uint_codes d
  | Decimal.D8 d => 56%N :: uint_codes d
  | Decimal.D9 d => 57%N :: uint_codes d
  end.

(** The decimal digits of a natural number, ["0"] for zero. *)
Definition str_nat (n : N) : pystr := uint_codes (N.to_uint n).

(** Left padding with ['0'] up to [width] characters. *)
Definition zfill (width : nat) (digits : pystr) : pystr :=
  replicate (width - length digits) 48%N ++ digits.

(** [format(i, "0<width>d")], as in [f"{i:03d}"]: the sign, when there is
    one, comes before the padding and counts in the width. *)
Definition format_0d (width : nat) (i : Z) : pystr :=
  if i <? 0 then 45%N :: zfill (width - 1) (str_nat (Z.to_N (- i)))
  else zfill width (str_nat (Z.to_N i)).

(** ** json.dumps on a dict of strings *)

(** A [dict] from [str] to [str]; Python keeps the insertion order, and
    [json.dumps] writes the items in that order. *)
Abbreviation dict := (list (pystr * pystr)) (only parsing).

(** [d[k]] *)
Fixpoint dict_get (d : dict) (k : pystr) : option pystr :=
  match d with
  | [] => None
  | (k', v) :: d' => if decide (k' = k) then Some v else dict_get d' k
  end.

(** [d[k] = v]: an existing key keeps its place, a new one goes last. *)
Fixpoint dict_set (d : dict) (k v : pystr) : dict :=
  match d with
  | [] => [(k, v)]
  | (k', v') :: d' =>
      if decide (k' = k) then (k', v) :: d' else (k', v') :: dict_set d' k v
  end.

(** The display [{k1: v1, k2: v2, k3: v3}]: items are stored left to
    right. *)
Definition dict_display (items : list (pystr * pystr)) : dict :=
  foldl (λ d kv, dict_set d kv.1 kv.2) [] items.

Definition hex_digit (d : N) : N :=
  (if d <? 10 then 48 + d else 87 + d)%N.

(** ['\\u{0:04x}'.format(n)], for [n < 0x10000]. *)
Definition u_escape (n : N) : pystr :=
  (lit "\u" ++ [hex_digit (n / 4096 mod 16); hex_digit (n / 256 mod 16);
                hex_digit (n / 16 mod 16); hex_digit (n mod 16)])%N.

(** The replacement of one character in [py_encode_basestring_ascii]:
    [ESCAPE_DCT] for the backslash, the quote and the five named controls,
    printable ASCII as it is, [\uXXXX] for the rest, with a surrogate pair
    above the basic plane. *)
Definition escape_char (c : N) : pystr :=
  (if c =? 92 then [92; 92]
   else if c =? 34 then [92; 34]
   else if c =? 8 then lit "\b"
   else if c =? 12 then lit "\f"
   else if c =? 10 then lit "\n"
   else if c =? 13 then lit "\r"
   else if c =? 9 then lit "\t"
   else if (32 <=? c) && (c <=? 126) then [c]
   else if c <? 65536 then u_escape c
   else
     let n := c - 65536 in
     let s1 := N.lor 55296 (N.land (N.shiftr n 10) 1023) in
     let s2 := N.lor 56320 (N.land n 1023) in
     u_escape s1 ++ u_escape s2)%N.

Definition encode_basestring_ascii (s : pystr) : pystr :=
  [34%N] ++ concat (escape_char <$> s) ++ [34%N].

(** [json.dumps(d)] with the default separators [', '] and [': '] and the
    default [ensure_ascii=True]. *)
Definition json_dumps (d : dict) : pystr :=
  match d with
  | [] => lit "{}"
  | _ =>
      lit "{"
      ++ str_join (lit ", ")
           ((λ kv, encode_basestring_ascii kv.1 ++ lit ": "
                   ++ encode_basestring_ascii kv.2) <$> d)
      ++ lit "}"
  end.


(** ** Exceptions *)

Inductive exn : Type :=
  | OverflowError
  | ValueError
  | IndexError
  | OSError.

Inductive result (A : Type) : Type :=
  | Ok (a : A)
  | Raise (e : exn).
Arguments Ok {A} a.
Arguments Raise {A} e.

#[global] Instance result_ret : MRet result := λ A a, Ok a.
#[global] Instance result_bind : MBind result := λ A B f m,
  match m with
  | Ok a => f a
  | Raise e => Raise e
  end.

(** ** datetime *)

(** A [timedelta] in normal form: [0 <= seconds < 86400] and
    [0 <= microseconds < 1000000]; only [days] carries a sign. *)
Record timedelta : Type := mk_timedelta {
  td_days : Z;
  td_seconds : Z;
  td_microseconds : Z
}.

(** The constructor [timedelta(days, seconds, microseconds, milliseconds,
    minutes, hours, weeks)] on integers: everything is brought down to
    days, seconds and microseconds, the carries are propagated upwards with
    [divmod], and a result beyond 999999999 days is refused. *)
Definition timedelta_new
    (days seconds microseconds milliseconds minutes hours weeks : Z)
    : result timedelta :=
  let days := days + weeks * 7 in
  let seconds := seconds + minutes * 60 + hours * 3600 in
  let microseconds := microseconds + milliseconds * 1000 in
  let d := days in
  let d := d + seconds / 86400 in
  let s := seconds mod 86400 in
  let us := microseconds mod 1000000 in
  let seconds := microseconds / 1000000 in
  let d := d + seconds / 86400 in
  let s := s + seconds mod 86400 in
  let s := s + us / 1000000 in
  let us := us mod 1000000 in
  let d := d + s / 86400 in
  let s := s mod 86400 in
  if 999999999 <? Z.abs d then Raise OverflowError
  else Ok (mk_timedelta d s us).

(** [-t] *)
Definition timedelta_neg (t : timedelta) : result timedelta :=
  timedelta_new (- td_days t) (- td_seconds t) (- td_microseconds t) 0 0 0 0.

(** [t1 + t2] *)
Definition timedelta_add (t1 t2 : timedelta) : result timedelta :=
  timedelta_new (td_days t1 + td_days t2) (td_seconds t1 + td_seconds t2)
                (td_microseconds t1 + td_microseconds t2) 0 0 0 0.

(** A naive [datetime]. The date is held as its proleptic Gregorian
    ordinal, [toordinal()], day 1 being 0001-01-01: that is the form in
    which [datetime] does its arithmetic, and ["%H:%M"] does not read the
    date. *)
Record datetime : Type := mk_datetime {
  ordinal : Z;
  hour : Z;
  minute : Z;
  second : Z;
  microsecond : Z
}.

(** [date.max.toordinal()], the ordinal of 9999-12-31. *)
Definition MAXORDINAL : Z := 3652059.

(** [dt + t] *)
Definition datetime_add (dt : datetime) (t : timedelta) : result datetime :=
  delta ← timedelta_new (ordinal dt) (second dt) (microsecond dt) 0
                        (minute dt) (hour dt) 0;
  delta ← timedelta_add delta t;
  let hour := td_seconds delta / 3600 in
  let rem := td_seconds delta mod 3600 in
  let minute := rem / 60 in
  let second := rem mod 60 in
  if (0 <? td_days delta) && (td_days delta <=? MAXORDINAL)
  then Ok (mk_datetime (td_days delta) hour minute second
                       (td_microseconds delta))
  else Raise OverflowError.

(** [dt - t], which [datetime.__sub__] computes as [dt + (-t)]. *)
Definition datetime_sub (dt : datetime) (t : timedelta) : result datetime :=
  t' ← timedelta_neg t;
  datetime_add dt t'.

(** [dt.strftime("%H:%M")] *)
Definition strftime_HM (dt : datetime) : pystr :=
  format_0d 2 (hour dt) ++ lit ":" ++ format_0d 2 (minute dt).

(** ** The environment of the script *)

(** The calls the script makes to the operating system: opening a file
    for writing, writing a text to it (the write proper and the flush when
    the [with] block closes the file), printing a line. *)
Inductive io_call : Type :=
  | OpenWrite (path : string)
  | WriteText (path : string) (text : pystr)
  | PrintLine (text : pystr).

(** What the script reads and writes.
    - [entropy] is the sequence of raw draws the [random] module will make
      and [draws] the number of them already consumed;
    - [wall] is the sequence of readings [datetime.now()] will return and
      [ticks] the number of them already taken;
    - [files] maps a path to the text of the file, [stdout] is the list of
      the lines printed so far;
    - [refuses] tells the calls the operating system refuses, each of
      which raises [OSError]: a path that is a directory or is not
      writable, a disk that is full, a standard output that is closed.
      The script does nothing that changes what is refused. *)
Record World : Type := mk_World {
  entropy : nat → N;
  draws : nat;
  wall : nat → datetime;
  ticks : nat;
  files : gmap string pystr;
  stdout : list pystr;
  refuses : io_call → bool
}.

(** Statements run in a world and either return a value and the next
    world or raise. *)
Definition M (A : Type) : Type := World → result (A * World).

#[global] Instance M_ret : MRet M := λ A a w, Ok (a, w).
#[global] Instance M_bind : MBind M := λ A B f m w,
  match m w with
  | Ok (a, w') => f a w'
  | Raise e => Raise e
  end.

Definition raise {A : Type} (e : exn) : M A := λ _, Raise e.

(** A library call that has no effect besides its exception. *)
Definition lift {A : Type} (r : result A) : M A :=
  match r with
  | Ok a => mret a
  | Raise e => raise e
  end.

(** [datetime.datetime.now()] *)
Definition datetime_now : M datetime := λ w,
  Ok (wall w (ticks w),
      mk_World (entropy w) (draws w) (wall w) (S (ticks w))
               (files w) (stdout w) (refuses w)).

(** [random._randbelow(n)], for [n > 0]: a number in [0, n). Whatever the
    generator does with its raw draw, the result is one of the [n] values
    and each of them is the result of some draw; the model takes the draw
    modulo [n]. *)
Definition randbelow (n : N) : M N := λ w,
  Ok ((entropy w (draws w) mod n)%N,
      mk_World (entropy w) (S (draws w)) (wall w) (ticks w)
               (files w) (stdout w) (refuses w)).

(** [random.randint(a, b)], that is [randrange(a, b + 1)]. *)
Definition randint (a b : Z) : M Z :=
  let width := b + 1 - a in
  if 0 <? width then
    r ← randbelow (Z.to_N width);
    mret (a + Z.of_N r)
  else raise ValueError.

(** [random.choice(seq)] *)
Definition choice {A : Type} (seq : list A) : M A :=
  match seq with
  | [] => raise IndexError
  | _ =>
      i ← randbelow (N.of_nat (length seq));
      match seq !! N.to_nat i with
      | Some x => mret x
      | None => raise IndexError
      end
  end.

(** [with open(path, 'w', encoding='utf-8') as f: f.write(text)]: the file
    is created or emptied, then receives the text. Either step raises
    [OSError] when the operating system refuses it. *)
Definition open_w (path : string) : M string := λ w,
  if refuses w (OpenWrite path) then Raise OSError
  else
    Ok (path,
        mk_World (entropy w) (draws w) (wall w) (ticks w)
                 (<[path := []]> (files w)) (stdout w) (refuses w)).

Definition file_write (f : string) (text : pystr) : M unit := λ w,
  if refuses w (WriteText f text) then Raise OSError
  else
    Ok ((),
        mk_World (entropy w) (draws w) (wall w) (ticks w)
                 (<[f := default [] (files w !! f) ++ text]> (files w))
                 (stdout w) (refuses w)).

(** [print(text)], which raises [OSError] when the standard output
    refuses the line. *)
Definition print (text : pystr) : M unit := λ w,
  if refuses w (PrintLine text) then Raise OSError
  else
    Ok ((),
        mk_World (entropy w) (draws w) (wall w) (ticks w) (files w)
                 (stdout w ++ [text]) (refuses w)).

(** ** dataset.py *)

(** [range(a, b)] *)
Definition range (a b : Z) : list Z := seqZ a (b - a).

(** [user_ids = [f"user{i:03d}" for i in range(1, 501)]] *)
Definition user_ids : list pystr :=
  (λ i, lit "user" ++ format_0d 3 i) <$> range 1 501.

(** The vocabulary [["active", "inactive", "expired"]]. *)
Definition statuses : list pystr :=
  [lit "active"; lit "inactive"; lit "expired"].

(** [login_time = datetime.datetime.now()
                  - datetime.timedelta(minutes=random.randint(0, 1440))] *)
Definition login_time_stmt : M datetime :=
  now ← datetime_now;
  k ← randint 0 1440;
  offset ← lift (timedelta_new 0 0 0 0 k 0 0);
  lift (datetime_sub now offset).

(** [status = random.choice(["active", "inactive", "expired"])] *)
Definition status_stmt : M pystr := choice statuses.

(** [session_data = {"userId": ..., "loginTime": ..., "status": ...}] *)
Definition session_data (user_id : pystr) (login_time : datetime)
    (status : pystr) : dict :=
  dict_display [(lit "userId", user_id);
                (lit "loginTime", strftime_HM login_time);
                (lit "status", status)].

(** U+2192, the arrow between the key and the value. *)
Definition arrow : N := 8594%N.

(** [f"session:{user_id} → {json.dumps(session_data)}"] *)
Definition session_line (user_id : pystr) (data : dict) : pystr :=
  lit "session:" ++ user_id ++ [32%N; arrow; 32%N] ++ json_dumps data.

(** The body of the loop; [sessions.append] is the new value of
    [sessions]. *)
Definition loop_body (user_id : pystr) (sessions : list pystr)
    : M (list pystr) :=
  login_time ← login_time_stmt;
  status ← status_stmt;
  let data := session_data user_id login_time status in
  mret (sessions ++ [session_line user_id data]).

(** [for user_id in ids: ...] *)
Fixpoint for_loop (ids : list pystr) (sessions : list pystr)
    : M (list pystr) :=
  match ids with
  | [] => mret sessions
  | user_id :: ids' =>
      sessions' ← loop_body user_id sessions;
      for_loop ids' sessions'
  end.

Definition out_path : string := "user_sessions.txt".

(** The script. *)
Definition main : M unit :=
  sessions ← for_loop user_ids [];
  f ← open_w out_path;
  file_write f (str_join [10%N] sessions);;
  print (lit "Generated 500 sessions and saved to user_sessions.txt").

(** The text of [user_sessions.txt] after a run that ends normally. *)
Definition output (w : World) : option pystr :=
  match main w with
  | Ok (_, w') => files w' !! out_path
  | Raise _ => None
  end.

(** ** Vocabulary of the statements *)

(** The world in which round [i] of the loop starts, when the loop starts
    in [w]: each earlier round has taken one clock reading and two draws. *)
Definition advance (w : World) (i : nat) : World :=
  mk_World (entropy w) (draws w + 2 * i) (wall w) (ticks w + i)
           (files w) (stdout w) (refuses w).

(** The clock reading and the two outcomes of round [i]. *)
Definition now_at (w : World) (i : nat) : datetime :=
  wall w (ticks w + i).

Definition offset_at (w : World) (i : nat) : Z :=
  Z.of_N (entropy w (draws w + 2 * i) mod 1441).

Definition status_at (w : World) (i : nat) : option pystr :=
  statuses !! N.to_nat (entropy w (draws w + 2 * i + 1) mod 3).

(** The login time of round [i]: the reading minus the offset. *)
Definition login_time_at (w : World) (i : nat) : result datetime :=
  offset ← timedelta_new 0 0 0 0 (offset_at w i) 0 0;
  datetime_sub (now_at w i) offset.

(** Round [i] of a run from [w] computes [login_time] and [status]. *)
Definition generated (w : World) (i : nat) (login_time : datetime)
    (status : pystr) : Prop :=
  login_time_at w i = Ok login_time ∧ status_at w i = Some status.

(** Round [i] of a run from [w] takes [user_id] from [user_ids], computes
    [login_time] and [status], and appends [line] to [sessions]. *)
Definition round (w : World) (i : nat) (user_id : pystr)
    (login_time : datetime) (status : pystr) (line : pystr) : Prop :=
  user_ids !! i = Some user_id
  ∧ generated w i login_time status
  ∧ line = session_line user_id (session_data user_id login_time status).

(** The microseconds between 0000-12-31 00:00 (the day before ordinal 1)
    and a [datetime]. *)
Definition instant (dt : datetime) : Z :=
  (((ordinal dt * 24 + hour dt) * 60 + minute dt) * 60 + second dt)
  * 1000000 + microsecond dt.

(** The microseconds a [timedelta] stands for. *)
Definition duration (t : timedelta) : Z :=
  (td_days t * 86400 + td_seconds t) * 1000000 + td_microseconds t.

(** A reading of a clock that shows a date from 0001-01-02 on. *)
Definition usable (dt : datetime) : Prop :=
  2 ≤ ordinal dt ≤ MAXORDINAL ∧ 0 ≤ hour dt < 24 ∧ 0 ≤ minute dt < 60
  ∧ 0 ≤ second dt < 60 ∧ 0 ≤ microsecond dt < 1000000.

#[global] Instance usable_dec dt : Decision (usable dt).
Proof. unfold usable. apply _. Defined.

(** The clock is usable for the 500 readings of a run. *)
Definition sane_clock (w : World) : Prop :=
  ∀ i : nat, (i < 500)%nat → usable (now_at w i).

(** The operating system refuses no call. *)
Definition granted (w : World) : Prop :=
  ∀ call : io_call, refuses w call = false.

(** A number below 100 on two digits, below 1000 on three. *)
Definition digit (d : Z) : N := Z.to_N (48 + d).

Definition two_digits (n : Z) : pystr :=
  [digit (n / 10); digit (n mod 10)].

Definition three_digits (n : Z) : pystr :=
  [digit (n / 100); digit (n / 10 mod 10); digit (n mod 10)].

(** [HH:MM] *)
Definition hh_mm (h m : Z) : pystr :=
  two_digits h ++ lit ":" ++ two_digits m.

(** A character that [json.dumps] writes as it is. *)
Definition plain (c : N) : Prop :=
  (32 ≤ c ≤ 126 ∧ c ≠ 34 ∧ c ≠ 92)%N.

#[global] Instance plain_dec c : Decision (plain c).
Proof. unfold plain. apply _. Defined.

Definition quoted (s : pystr) : pystr := [34%N] ++ s ++ [34%N].

(** The text of a JSON object of three members [userId], [loginTime] and
    [status], in this order. *)
Definition json_object_text (user_id login_time status : pystr) : pystr :=
  lit "{" ++ quoted (lit "userId") ++ lit ": " ++ quoted user_id
  ++ lit ", " ++ quoted (lit "loginTime") ++ lit ": " ++ quoted login_time
  ++ lit ", " ++ quoted (lit "status") ++ lit ": " ++ quoted status
  ++ lit "}".

(** The text of a line [session:<key> → <json object>]. *)
Definition line_text (key user_id login_time status : pystr) : pystr :=
  lit "session:" ++ key ++ [32%N; arrow; 32%N]
  ++ json_object_text user_id login_time status.

(** A line of the file for [user_id]: the key and the [userId] member
    are [user_id], the [loginTime] member is an [HH:MM] and the [status]
    member is in the vocabulary. *)
Definition well_formed_line (user_id line : pystr) : Prop :=
  ∃ h m status,
    0 ≤ h ≤ 23 ∧ 0 ≤ m ≤ 59 ∧ status ∈ statuses
    ∧ line = line_text user_id user_id (hh_mm h m) status.

(** The lines of a text. *)
Definition lines (content : pystr) : list pystr := str_split 10%N content.

(** A world to run the script in: the clock shows 10:30 on day 739000
    (2024-04-24) and the seconds go by; the draws follow a linear
    sequence. *)
Definition sample_world : World :=
  mk_World (λ i, N.of_nat i * 131 + 13)%N 0
           (λ i, mk_datetime 739000 10 30 (Z.of_nat i mod 60) 250) 0
           ∅ [] (λ _, false).

(** The same clock with other draws. *)
Definition other_world : World :=
  mk_World (λ i, N.of_nat i * 7 + 1)%N 0
           (λ i, mk_datetime 739000 10 30 (Z.of_nat i mod 60) 250) 0
           ∅ [] (λ _, false).

Definition sample_content : pystr := default [] (output sample_world).

Definition other_content : pystr := default [] (output other_world).

(** The first line of [sample_content]. *)
Definition sample_line : pystr :=
  line_text (lit "user001") (lit "user001") (lit "10:17") (lit "active").

(** ** Vocabulary of the further properties *)

(** A printable ASCII character. *)
Definition printable (c : N) : Prop := (32 ≤ c ≤ 126)%N.

#[global] Instance printable_dec c : Decision (printable c).
Proof. unfold printable. apply _. Defined.

(** A [datetime] that the constructor of the class accepts. *)
Definition valid_datetime (dt : datetime) : Prop :=
  1 ≤ ordinal dt ≤ MAXORDINAL ∧ 0 ≤ hour dt < 24 ∧ 0 ≤ minute dt < 60
  ∧ 0 ≤ second dt < 60 ∧ 0 ≤ microsecond dt < 1000000.

#[global] Instance valid_datetime_dec dt : Decision (valid_datetime dt).
Proof. unfold valid_datetime. apply _. Defined.

(** The minutes since midnight. *)
Definition minute_of_day (dt : datetime) : Z := hour dt * 60 + minute dt.

(** The line round [i] appends for [user_id], or the exception it
    raises. *)
Definition line_at (w : World) (i : nat) (user_id : pystr)
    : result pystr :=
  login_time ← login_time_at w i;
  match status_at w i with
  | Some status =>
      Ok (session_line user_id (session_data user_id login_time status))
  | None => Raise IndexError
  end.

(** The lines of the rounds [i], [i + 1], ... for the identifiers [ids],
    or the exception of the first round that raises. *)
Fixpoint lines_from (w : World) (i : nat) (ids : list pystr)
    : result (list pystr) :=
  match ids with
  | [] => Ok []
  | user_id :: ids' =>
      line ← line_at w i user_id;
      rest ← lines_from w (S i) ids';
      Ok (line :: rest)
  end.

(** The line the script prints when it is done. *)
Definition message : pystr :=
  lit "Generated 500 sessions and saved to user_sessions.txt".

(** The world a run that ends normally leaves. *)
Definition final_world (w : World) : option World :=
  match main w with
  | Ok (_, w') => Some w'
  | Raise _ => None
  end.

(** The exception of a run that does not end normally. *)
Definition raised (w : World) : option exn :=
  match main w with
  | Ok _ => None
  | Raise e => Some e
  end.

(** Two worlds give a run the same 500 clock readings and the same 1000
    draws, and their operating systems refuse the same calls. *)
Definition same_inputs (w1 w2 : World) : Prop :=
  (∀ i : nat, (i < 500)%nat → now_at w1 i = now_at w2 i)
  ∧ (∀ j : nat, (j < 1000)%nat →
       entropy w1 (draws w1 + j) = entropy w2 (draws w2 + j))
  ∧ ∀ call : io_call, refuses w1 call = refuses w2 call.

(** The same world under an operating system that refuses nothing. *)
Definition permissive (w : World) : World :=
  mk_World (entropy w) (draws w) (wall w) (ticks w) (files w) (stdout w)
           (λ _, false).

(** [text.encode('utf-8')] on one character: one to four bytes, and no
    encoding for a surrogate or beyond U+10FFFF. *)
Definition utf8_encode_char (c : N) : option (list N) :=
  (if c <? 128 then Some [c]
   else if c <? 2048 then Some [192 + c / 64; 128 + c mod 64]
   else if c <? 65536 then
     if (55296 <=? c) && (c <=? 57343) then None
     else Some [224 + c / 4096; 128 + c / 64 mod 64; 128 + c mod 64]
   else if c <? 1114112 then
     Some [240 + c / 262144; 128 + c / 4096 mod 64;
           128 + c / 64 mod 64; 128 + c mod 64]
   else None)%N.

(** The bytes of a text in a file opened with [encoding='utf-8'], when
    every character has an encoding. *)
Fixpoint utf8_encode (s : pystr) : option (list N) :=
  match s with
  | [] => Some []
  | c :: s' =>
      bytes ← utf8_encode_char c;
      rest ← utf8_encode s';
      Some (bytes ++ rest)
  end.

(** A world with a clock that shows 00:10 on 0001-01-01. *)
Definition early_world : World :=
  mk_World (λ i, N.of_nat i * 131 + 13)%N 0
           (λ i, mk_datetime 1 0 10 (Z.of_nat i mod 60) 0) 0
           ∅ [] (λ _, false).

(** A world that has seen earlier runs: some draws and readings are
    taken, [user_sessions.txt] and another file exist, and something was
    printed. *)
Definition used_world : World :=
  mk_World (λ i, N.of_nat i * 131 + 13)%N 4
           (λ i, mk_datetime 739000 23 50 (Z.of_nat i mod 60) 250) 2
           (<["notes.txt" := lit "keep"]>
              (<[out_path := lit "old text"]> ∅))
           [lit "hello"] (λ _, false).

Definition used_content : pystr := default [] (output used_world).

(** [sample_world] with [user_sessions.txt] that cannot be opened for
    writing: a directory of this name, or a file that is read-only. *)
Definition locked_world : World :=
  mk_World (λ i, N.of_nat i * 131 + 13)%N 0
           (λ i, mk_datetime 739000 10 30 (Z.of_nat i mod 60) 250) 0
           ∅ []
           (λ call, match call with
                    | OpenWrite path => bool_decide (path = out_path)
                    | _ => false
                    end).

(** A world that has seen nothing yet and will give a run the readings
    and the draws [used_world] gives. *)
Definition fresh_world : World :=
  mk_World (λ j, N.of_nat (4 + j) * 131 + 13)%N 0
           (λ i, mk_datetime 739000 23 50 (Z.of_nat (2 + i) mod 60) 250) 0
           ∅ [] (λ _, false).

(** What a second run writes after a run from [sample_world]. *)
Definition second_content : pystr :=
  default [] (output (advance sample_world 500)).

(** ** Tactics *)

(** A decidable statement about closed terms, settled by evaluation. *)
Ltac by_evaluation := apply (bool_decide_unpack _); vm_compute; exact I.

(** The same for an equation between the results of two runs, with the
    decision procedure of the equality given, so that none is searched
    for by unfolding the runs. *)
Ltac run_sample :=
  apply (bool_decide_unpack _ (dec := decide_rel (=) _ _));
  vm_compute; exact I.

(** Linear arithmetic with quotients and remainders by constants. *)
Ltac div_lia := Z.to_euclidean_division_equations; lia.

(** The clock of a sample world is usable. *)
Ltac sample_clock :=
  intros ? ?; unfold usable, now_at, MAXORDINAL; simpl; div_lia.

(** ** The embedding on concrete inputs *)

Example format_0d_7 : format_0d 3 7 = lit "007".
Proof. reflexivity. Qed.

Example format_0d_500 : format_0d 3 500 = lit "500".
Proof. reflexivity. Qed.

Example format_0d_wide : format_0d 3 1234 = lit "1234".
Proof. reflexivity. Qed.

Example format_0d_negative : format_0d 3 (-5) = lit "-05".
Proof. reflexivity. Qed.

Example user_ids_first : head user_ids = Some (lit "user001").
Proof. reflexivity. Qed.

Example user_ids_last : last user_ids = Some (lit "user500").
Proof. vm_compute. reflexivity. Qed.

Example str_split_trailing :
  str_split 10%N (lit "ab" ++ [10%N] ++ lit "c" ++ [10%N])
  = [lit "ab"; lit "c"; []].
Proof. reflexivity. Qed.

Example str_join_three :
  str_join [10%N] [lit "ab"; lit "c"; []]
  = lit "ab" ++ [10%N] ++ lit "c" ++ [10%N].
Proof. reflexivity. Qed.

(** A quote, a newline, U+00E9 and U+1F600 inside a value. *)
Example json_dumps_escapes :
  json_dumps [(lit "k", [97; 34; 10; 233; 128512]%N)]
  = lit "{" ++ quoted (lit "k") ++ lit ": "
    ++ quoted (lit "a" ++ [92; 34]%N ++ lit "\n\u00e9\ud83d\ude00")
    ++ lit "}".
Proof. reflexivity. Qed.

Example json_dumps_empty : json_dumps [] = lit "{}".
Proof. reflexivity. Qed.

(** A later item with the key of an earlier one replaces its value and
    keeps its place. *)
Example dict_display_repeated :
  dict_display [(lit "a", lit "1"); (lit "b", lit "2"); (lit "a", lit "3")]
  = [(lit "a", lit "3"); (lit "b", lit "2")].
Proof. reflexivity. Qed.

Example timedelta_90_minutes :
  timedelta_new 0 0 0 0 90 0 0 = Ok (mk_timedelta 0 5400 0).
Proof. reflexivity. Qed.

Example timedelta_1440_minutes :
  timedelta_new 0 0 0 0 1440 0 0 = Ok (mk_timedelta 1 0 0).
Proof. reflexivity. Qed.

Example timedelta_neg_90_minutes :
  timedelta_neg (mk_timedelta 0 5400 0) = Ok (mk_timedelta (-1) 81000 0).
Proof. reflexivity. Qed.

(** Thirty minutes before 00:10 is 23:40 on the day before. *)
Example datetime_sub_midnight :
  datetime_sub (mk_datetime 739000 0 10 5 250) (mk_timedelta 0 1800 0)
  = Ok (mk_datetime 738999 23 40 5 250).
Proof. reflexivity. Qed.

(** Nothing comes before 0001-01-01 00:00. *)
Example datetime_sub_overflow :
  datetime_sub (mk_datetime 1 0 10 0 0) (mk_timedelta 0 1800 0)
  = Raise OverflowError.
Proof. reflexivity. Qed.

Example strftime_HM_padded :
  strftime_HM (mk_datetime 739000 9 5 59 0) = lit "09:05".
Proof. reflexivity. Qed.

Example sample_first_round :
  login_time_at sample_world 0 = Ok (mk_datetime 739000 10 17 0 250)
  ∧ status_at sample_world 0 = Some (lit "active").
Proof. split; reflexivity. Qed.

(** A path the operating system does not let the script open: the script
    raises [OSError] and leaves no text. *)
Example open_w_refused :
  open_w out_path locked_world = Raise OSError.
Proof. reflexivity. Qed.

Example locked_world_raises :
  raised locked_world = Some OSError ∧ output locked_world = None.
Proof. split; vm_compute; reflexivity. Qed.

(** With a clock on 0001-01-01 the loop fails before the file is
    opened. *)
Example early_world_raises :
  raised early_world = Some OverflowError ∧ output early_world = None.
Proof. split; vm_compute; reflexivity. Qed.

(** ** Strings *)

Section strings.
Implicit Types (c : N) (s : pystr) (xs : list pystr).

Lemma str_split_nonempty c s : str_split c s ≠ [].
Proof.
  destruct s as [|x s]; simpl; [done|].
  destruct (x =? c)%N; [done|]. by destruct (str_split c s).
Qed.

Lemma str_split_no_sep c s : c ∉ s → str_split c s = [s].
Proof.
  induction s as [|x s IH]; intros Hc; simpl; [done|].
  apply not_elem_of_cons in Hc as [Hx Hs].
  destruct (N.eqb_spec x c) as [->|_]; [done|].
  by rewrite IH.
Qed.

Lemma str_split_app c s s' :
  c ∉ s → str_split c (s ++ c :: s') = s :: str_split c s'.
Proof.
  induction s as [|x s IH]; intros Hc; simpl.
  - by rewrite N.eqb_refl.
  - apply not_elem_of_cons in Hc as [Hx Hs].
    destruct (N.eqb_spec x c) as [->|_]; [done|].
    by rewrite IH.
Qed.

(** Splitting what was joined gives the pieces back, when no piece
    holds the separator and there is a piece at all. *)
Lemma str_split_join c xs :
  xs ≠ [] → Forall (λ s, c ∉ s) xs → str_split c (str_join [c] xs) = xs.
Proof.
  induction xs as [|x xs IH]; intros Hne Hall; [done|].
  apply Forall_cons in Hall as [Hx Hall].
  destruct xs as [|y xs].
  - simpl. by apply str_split_no_sep.
  - change (str_join [c] (x :: y :: xs))
      with (x ++ c :: str_join [c] (y :: xs)).
    rewrite str_split_app by done. by rewrite IH.
Qed.

Lemma str_count_app c s s' :
  str_count c (s ++ s') = (str_count c s + str_count c s')%nat.
Proof. unfold str_count. by rewrite filter_app, length_app. Qed.

Lemma str_count_none c s : c ∉ s → str_count c s = 0%nat.
Proof.
  unfold str_count. induction s as [|x s IH]; intros Hc; [done|].
  apply not_elem_of_cons in Hc as [Hx Hs].
  rewrite filter_cons_False by congruence. auto.
Qed.

(** One separator between two pieces: a join of [n] pieces free of the
    separator holds [n - 1] of them. *)
Lemma str_count_join c xs :
  Forall (λ s, c ∉ s) xs →
  str_count c (str_join [c] xs) = (length xs - 1)%nat.
Proof.
  induction xs as [|x xs IH]; intros Hall; [done|].
  apply Forall_cons in Hall as [Hx Hall].
  destruct xs as [|y xs].
  - simpl. by apply str_count_none.
  - change (str_join [c] (x :: y :: xs))
      with (x ++ [c] ++ str_join [c] (y :: xs)).
    rewrite !str_count_app, IH, str_count_none by done.
    unfold str_count at 1. rewrite filter_cons_True by done. simpl. lia.
Qed.

Lemma last_str_join sep xs x :
  last xs = Some x → x ≠ [] → last (str_join sep xs) = last x.
Proof.
  induction xs as [|y xs IH]; intros Hlast Hx; [done|].
  destruct xs as [|z xs].
  - simpl in *. congruence.
  - change (str_join sep (y :: z :: xs))
      with (y ++ sep ++ str_join sep (z :: xs)).
    rewrite app_assoc, last_app.
    rewrite IH by done.
    destruct x using rev_ind; [done|]. by rewrite last_snoc.
Qed.
End strings.

(** ** Formatting *)

Section formatting.
Implicit Types (n : Z) (c : N) (s : pystr).

Lemma format_0d_2 n : 0 ≤ n < 100 → format_0d 2 n = two_digits n.
Proof.
  intros Hn.
  assert (Forall (λ n, format_0d 2 n = two_digits n) (seqZ 0 100)) as Hall
    by by_evaluation.
  rewrite Forall_forall in Hall. apply Hall, elem_of_seqZ. lia.
Qed.

Lemma format_0d_3 n : 0 ≤ n < 1000 → format_0d 3 n = three_digits n.
Proof.
  intros Hn.
  assert (Forall (λ n, format_0d 3 n = three_digits n) (seqZ 0 1000))
    as Hall by by_evaluation.
  rewrite Forall_forall in Hall. apply Hall, elem_of_seqZ. lia.
Qed.

Lemma digit_plain d : 0 ≤ d ≤ 9 → plain (digit d).
Proof. unfold plain, digit. lia. Qed.

Lemma two_digits_plain n : 0 ≤ n < 100 → Forall plain (two_digits n).
Proof.
  intros Hn. unfold two_digits.
  repeat apply Forall_cons_2; try apply Forall_nil_2;
    apply digit_plain; div_lia.
Qed.

Lemma three_digits_plain n : 0 ≤ n < 1000 → Forall plain (three_digits n).
Proof.
  intros Hn. unfold three_digits.
  repeat apply Forall_cons_2; try apply Forall_nil_2;
    apply digit_plain; div_lia.
Qed.

Lemma hh_mm_plain h m :
  0 ≤ h < 24 → 0 ≤ m < 60 → Forall plain (hh_mm h m).
Proof.
  intros Hh Hm. unfold hh_mm.
  rewrite !Forall_app. split_and!.
  - apply two_digits_plain. lia.
  - by_evaluation.
  - apply two_digits_plain. lia.
Qed.

Lemma plain_not_newline s : Forall plain s → 10%N ∉ s.
Proof.
  rewrite Forall_forall. intros Hall Hin.
  apply Hall in Hin. unfold plain in Hin. lia.
Qed.

Lemma strftime_HM_hh_mm dt :
  0 ≤ hour dt < 24 → 0 ≤ minute dt < 60 →
  strftime_HM dt = hh_mm (hour dt) (minute dt).
Proof.
  intros Hh Hm. unfold strftime_HM, hh_mm.
  by rewrite !format_0d_2 by lia.
Qed.
End formatting.

(** ** json.dumps *)

Section json.
Implicit Types (c : N) (s : pystr).

Lemma escape_char_plain c : plain c → escape_char c = [c].
Proof.
  intros (Hc & H34 & H92). unfold escape_char.
  repeat match goal with
         | |- context [(c =? ?k)%N] =>
             destruct (N.eqb_spec c k) as [->|_]; [lia|]
         end.
  destruct (N.leb_spec 32 c); [|lia].
  destruct (N.leb_spec c 126); [done|lia].
Qed.

Lemma encode_basestring_ascii_plain s :
  Forall plain s → encode_basestring_ascii s = quoted s.
Proof.
  intros Hs. unfold encode_basestring_ascii, quoted. do 2 f_equal.
  induction Hs as [|c s Hc _ IH]; [done|].
  rewrite fmap_cons. simpl. by rewrite escape_char_plain, IH.
Qed.

Lemma session_data_items user_id login_time status :
  session_data user_id login_time status
  = [(lit "userId", user_id);
     (lit "loginTime", strftime_HM login_time);
     (lit "status", status)].
Proof. reflexivity. Qed.

Lemma session_data_get user_id login_time status :
  let data := session_data user_id login_time status in
  dict_get data (lit "userId") = Some user_id
  ∧ dict_get data (lit "loginTime") = Some (strftime_HM login_time)
  ∧ dict_get data (lit "status") = Some status.
Proof. done. Qed.

(** The JSON text of a record whose three values need no escape. *)
Lemma json_dumps_session_data user_id login_time status :
  Forall plain user_id → Forall plain (strftime_HM login_time) →
  Forall plain status →
  json_dumps (session_data user_id login_time status)
  = json_object_text user_id (strftime_HM login_time) status.
Proof.
  intros Hu Ht Hs. rewrite session_data_items.
  unfold json_dumps, json_object_text.
  cbn [str_join fmap list_fmap fst snd].
  rewrite !(encode_basestring_ascii_plain user_id),
    !(encode_basestring_ascii_plain (strftime_HM _)),
    !(encode_basestring_ascii_plain status) by done.
  rewrite !encode_basestring_ascii_plain
    by by_evaluation.
  by rewrite <- !app_assoc.
Qed.
End json.

(** ** datetime arithmetic *)

Section datetime_facts.
Implicit Types (dt : datetime) (t : timedelta) (k : Z).

(** The constructor returns a normal form of the same duration. *)
Lemma timedelta_new_ok d s us ms m h wk t :
  timedelta_new d s us ms m h wk = Ok t →
  0 ≤ td_seconds t < 86400 ∧ 0 ≤ td_microseconds t < 1000000
  ∧ duration t
    = ((d + wk * 7) * 86400 + s + m * 60 + h * 3600) * 1000000
      + us + ms * 1000.
Proof.
  unfold timedelta_new, duration.
  destruct (_ <? _); [done|]. intros [= <-]. simpl. div_lia.
Qed.

Lemma timedelta_new_small d s us ms m h wk :
  Z.abs (((d + wk * 7) * 86400 + s + m * 60 + h * 3600) * 1000000
         + us + ms * 1000) < 999999999 * 86400000000 →
  ∃ t, timedelta_new d s us ms m h wk = Ok t.
Proof.
  intros Hsmall. unfold timedelta_new.
  match goal with |- context [?a <? ?b] => destruct (Z.ltb_spec a b) end;
    [|by eexists].
  exfalso. div_lia.
Qed.

Lemma datetime_add_ok dt t dt' :
  datetime_add dt t = Ok dt' →
  instant dt' = instant dt + duration t
  ∧ 1 ≤ ordinal dt' ≤ MAXORDINAL
  ∧ 0 ≤ hour dt' < 24 ∧ 0 ≤ minute dt' < 60
  ∧ 0 ≤ second dt' < 60 ∧ 0 ≤ microsecond dt' < 1000000.
Proof.
  unfold datetime_add.
  destruct (timedelta_new _ _ _ _ _ _ _) as [d1|] eqn:H1; [|done].
  simpl. destruct (timedelta_add d1 t) as [d2|] eqn:H2; [|done].
  simpl. apply timedelta_new_ok in H1 as (_ & _ & H1).
  apply timedelta_new_ok in H2 as (Hs & Hus & H2).
  destruct (Z.ltb_spec 0 (td_days d2)); [|done].
  destruct (Z.leb_spec (td_days d2) MAXORDINAL); [|done].
  intros [= <-]. unfold instant, duration in *. simpl. div_lia.
Qed.

Lemma datetime_sub_ok dt t dt' :
  datetime_sub dt t = Ok dt' →
  instant dt' = instant dt - duration t
  ∧ 1 ≤ ordinal dt' ≤ MAXORDINAL
  ∧ 0 ≤ hour dt' < 24 ∧ 0 ≤ minute dt' < 60
  ∧ 0 ≤ second dt' < 60 ∧ 0 ≤ microsecond dt' < 1000000.
Proof.
  unfold datetime_sub, timedelta_neg.
  destruct (timedelta_new _ _ _ _ _ _ _) as [t'|] eqn:H1; [|done].
  simpl. intros H2%datetime_add_ok.
  apply timedelta_new_ok in H1 as (_ & _ & H1).
  unfold duration in *. lia.
Qed.

(** An offset of [k] minutes. *)
Lemma timedelta_minutes k :
  0 ≤ k ≤ 1440 →
  ∃ t, timedelta_new 0 0 0 0 k 0 0 = Ok t ∧ duration t = k * 60000000
       ∧ 0 ≤ td_seconds t < 86400 ∧ 0 ≤ td_microseconds t < 1000000.
Proof.
  intros Hk.
  destruct (timedelta_new_small 0 0 0 0 k 0 0) as [t Ht]; [lia|].
  exists t. split; [done|].
  apply timedelta_new_ok in Ht. lia.
Qed.

(** Going back by at most a day from a usable reading stays in range. *)
Lemma datetime_sub_usable dt t :
  usable dt → 0 ≤ duration t ≤ 86400000000 →
  0 ≤ td_seconds t < 86400 → 0 ≤ td_microseconds t < 1000000 →
  ∃ dt', datetime_sub dt t = Ok dt'.
Proof.
  intros (Hord & Hh & Hm & Hs & Hus) Hdur Hts Htus.
  unfold MAXORDINAL in Hord.
  unfold datetime_sub, timedelta_neg.
  destruct (timedelta_new_small (- td_days t) (- td_seconds t)
              (- td_microseconds t) 0 0 0 0) as [t' Ht'].
  { unfold duration in Hdur. lia. }
  rewrite Ht'. simpl.
  apply timedelta_new_ok in Ht' as (Hs' & Hus' & Hdur').
  unfold datetime_add.
  destruct (timedelta_new_small (ordinal dt) (second dt) (microsecond dt)
              0 (minute dt) (hour dt) 0) as [d1 Hd1]; [lia|].
  rewrite Hd1. simpl.
  apply timedelta_new_ok in Hd1 as (Hs1 & Hus1 & Hdur1).
  unfold timedelta_add.
  destruct (timedelta_new_small (td_days d1 + td_days t')
              (td_seconds d1 + td_seconds t')
              (td_microseconds d1 + td_microseconds t') 0 0 0 0)
    as [d2 Hd2].
  { unfold duration in *. lia. }
  rewrite Hd2. simpl.
  apply timedelta_new_ok in Hd2 as (Hs2 & Hus2 & Hdur2).
  unfold duration in *.
  destruct (Z.ltb_spec 0 (td_days d2)); [|lia].
  destruct (Z.leb_spec (td_days d2) MAXORDINAL); [by eexists|].
  unfold MAXORDINAL in *. lia.
Qed.
End datetime_facts.

(** ** The statements of the loop *)

Section statements.
Implicit Types (w : World) (i : nat) (user_id status : pystr).

Lemma advance_0 w : advance w 0 = w.
Proof.
  destruct w. unfold advance. simpl. f_equal; lia.
Qed.

Lemma advance_S w i : advance (advance w 1) i = advance w (S i).
Proof. unfold advance. simpl. f_equal; lia. Qed.

Lemma offset_at_range w i : 0 ≤ offset_at w i ≤ 1440.
Proof.
  unfold offset_at.
  assert (entropy w (draws w + 2 * i) mod 1441 < 1441)%N as Hlt
    by by apply N.mod_upper_bound.
  revert Hlt. generalize (entropy w (draws w + 2 * i) mod 1441)%N. lia.
Qed.

Lemma status_at_some w i : ∃ status, status_at w i = Some status.
Proof.
  unfold status_at. apply lookup_lt_is_Some.
  assert (entropy w (draws w + 2 * i + 1) mod 3 < 3)%N as Hlt
    by by apply N.mod_upper_bound.
  revert Hlt. generalize (entropy w (draws w + 2 * i + 1) mod 3)%N.
  simpl. lia.
Qed.

Lemma status_at_statuses w i status :
  status_at w i = Some status → status ∈ statuses.
Proof. unfold status_at. apply list_elem_of_lookup_2. Qed.

(** The round, with its monadic plumbing unfolded. *)
Lemma loop_body_unfold user_id sessions w :
  loop_body user_id sessions w
  = match timedelta_new 0 0 0 0 (offset_at w 0) 0 0 with
    | Ok offset =>
        match datetime_sub (now_at w 0) offset with
        | Ok login_time =>
            match status_at w 0 with
            | Some status =>
                Ok (sessions
                    ++ [session_line user_id
                          (session_data user_id login_time status)],
                    advance w 1)
            | None => Raise IndexError
            end
        | Raise e => Raise e
        end
    | Raise e => Raise e
    end.
Proof.
  unfold loop_body, login_time_stmt, status_stmt, choice, randint,
    datetime_now, randbelow, now_at, offset_at, status_at, advance.
  unfold mbind, M_bind, mret, M_ret. simpl.
  rewrite !Nat.add_0_r.
  destruct (timedelta_new _ _ _ _ _ _ _) as [offset|]; [|done]. simpl.
  destruct (datetime_sub _ _) as [login_time|]; [|done]. simpl.
  replace (S (draws w)) with (draws w + 1)%nat by lia.
  destruct (statuses !! _) as [status|]; [|done]. simpl.
  do 2 f_equal. f_equal; lia.
Qed.

(** A round that ends normally has computed what [generated] says and
    leaves the world one reading and two draws further. *)
Lemma loop_body_ok user_id sessions w sessions' w' :
  loop_body user_id sessions w = Ok (sessions', w') →
  w' = advance w 1
  ∧ ∃ login_time status,
      generated w 0 login_time status
      ∧ sessions'
        = sessions
          ++ [session_line user_id
                (session_data user_id login_time status)].
Proof.
  rewrite loop_body_unfold. unfold generated, login_time_at.
  destruct (timedelta_new _ _ _ _ _ _ _) as [offset|] eqn:Hoff; [|done].
  simpl.
  destruct (datetime_sub _ _) as [login_time|] eqn:Hsub; [|done].
  destruct (status_at w 0) as [status|] eqn:Hst; [|done].
  intros [= <- <-]. split; [done|].
  by exists login_time, status.
Qed.

(** A round ends normally when its clock reading is usable. *)
Lemma loop_body_usable user_id sessions w :
  usable (now_at w 0) →
  ∃ sessions', loop_body user_id sessions w = Ok (sessions', advance w 1).
Proof.
  intros Hnow. rewrite loop_body_unfold.
  destruct (timedelta_minutes (offset_at w 0) (offset_at_range w 0))
    as (offset & -> & Hdur & Hs & Hus).
  destruct (datetime_sub_usable (now_at w 0) offset) as [login_time ->];
    [done| |done|done|].
  { pose proof (offset_at_range w 0). lia. }
  destruct (status_at_some w 0) as [status ->]. eauto.
Qed.
End statements.

(** ** The identifiers *)

Section identifiers.
Implicit Types (i : nat) (user_id : pystr).

Lemma length_user_ids : length user_ids = 500%nat.
Proof. unfold user_ids, range. by rewrite length_fmap, length_seqZ. Qed.

Lemma user_ids_lookup i user_id :
  user_ids !! i = Some user_id ↔
  (i < 500)%nat ∧ user_id = lit "user" ++ three_digits (Z.of_nat i + 1).
Proof.
  unfold user_ids, range. rewrite list_lookup_fmap, fmap_Some.
  setoid_rewrite lookup_seqZ. split.
  - intros (n & [-> Hi] & ->). split; [lia|].
    rewrite format_0d_3 by lia. do 2 f_equal. lia.
  - intros [Hi ->]. exists (1 + Z.of_nat i). split; [lia|].
    rewrite format_0d_3 by lia. do 2 f_equal. lia.
Qed.

Lemma three_digits_inj n n' :
  0 ≤ n < 1000 → 0 ≤ n' < 1000 →
  three_digits n = three_digits n' → n = n'.
Proof.
  intros Hn Hn'. unfold three_digits, digit. intros [= H2 H1 H0].
  apply Z2N.inj in H2, H1, H0; div_lia.
Qed.

Lemma user_ids_NoDup : NoDup user_ids.
Proof.
  apply NoDup_alt. intros i j user_id.
  rewrite !user_ids_lookup. intros [Hi ->] [Hj Heq].
  apply app_inv_head, three_digits_inj in Heq; lia.
Qed.

Lemma user_ids_plain user_id : user_id ∈ user_ids → Forall plain user_id.
Proof.
  intros (i & Hi)%list_elem_of_lookup_1.
  apply user_ids_lookup in Hi as [Hi ->].
  apply Forall_app. split; [by_evaluation|].
  apply three_digits_plain. lia.
Qed.
End identifiers.

(** ** The loop and the script *)

Section run.
Implicit Types (w : World) (i : nat) (user_id status : pystr).

Lemma generated_advance w i login_time status :
  generated (advance w 1) i login_time status
  ↔ generated w (S i) login_time status.
Proof.
  unfold generated, login_time_at, now_at, offset_at, status_at, advance.
  simpl.
  replace (ticks w + 1 + i)%nat with (ticks w + S i)%nat by lia.
  replace (draws w + 2 + (i + (i + 0)))%nat
    with (draws w + (S i + (S i + 0)))%nat by lia.
  done.
Qed.

(** A loop that ends normally has appended one line per identifier, the
    line of round [i] made of what this round generated. *)
Lemma for_loop_ok ids : ∀ sessions w sessions' w',
  for_loop ids sessions w = Ok (sessions', w') →
  ∃ new,
    sessions' = sessions ++ new ∧ length new = length ids
    ∧ ∀ i user_id, ids !! i = Some user_id →
        ∃ login_time status,
          generated w i login_time status
          ∧ new !! i
            = Some (session_line user_id
                      (session_data user_id login_time status)).
Proof.
  induction ids as [|id ids IH]; intros sessions w sessions' w'.
  - intros [= <- <-]. exists []. by rewrite app_nil_r.
  - simpl. unfold mbind, M_bind.
    destruct (loop_body id sessions w) as [[s1 w1]|] eqn:Hbody; [|done].
    apply loop_body_ok in Hbody as (-> & t0 & st0 & Hgen0 & ->).
    intros (new & -> & Hlen & Hnew)%IH.
    exists (session_line id (session_data id t0 st0) :: new).
    split; [by rewrite <- app_assoc|]. split; [simpl; lia|].
    intros [|i] user_id Hi; simpl in Hi.
    + injection Hi as <-. eauto.
    + apply Hnew in Hi as (t & st & Hgen & Hi).
      apply (proj1 (generated_advance _ _ _ _)) in Hgen. eauto.
Qed.

(** The loop ends normally when the clock is usable at each round. *)
Lemma for_loop_usable ids : ∀ sessions w,
  (∀ i, (i < length ids)%nat → usable (now_at w i)) →
  ∃ sessions' w', for_loop ids sessions w = Ok (sessions', w').
Proof.
  induction ids as [|id ids IH]; intros sessions w Hclock.
  - by eexists _, _.
  - simpl. unfold mbind, M_bind.
    destruct (loop_body_usable id sessions w) as [s1 ->].
    { apply Hclock. simpl. lia. }
    apply IH. intros i Hi.
    assert (now_at (advance w 1) i = now_at w (S i)) as ->.
    { unfold now_at, advance. simpl. f_equal. lia. }
    apply Hclock. simpl. lia.
Qed.

(** The loop leaves the world as many rounds further. *)
Lemma for_loop_world ids : ∀ sessions w sessions' w',
  for_loop ids sessions w = Ok (sessions', w') →
  w' = advance w (length ids).
Proof.
  induction ids as [|id ids IH]; intros sessions w sessions' w'.
  - intros [= <- <-]. by rewrite advance_0.
  - simpl. unfold mbind, M_bind.
    destruct (loop_body id sessions w) as [[s1 w1]|] eqn:Hbody; [|done].
    apply loop_body_ok in Hbody as (-> & _).
    intros ->%IH. apply advance_S.
Qed.

(** The file holds the lines of the loop, joined, when the operating
    system refuses none of the three calls that follow the loop. *)
Lemma output_unfold w :
  output w
  = match for_loop user_ids [] w with
    | Ok (sessions, _) =>
        if refuses w (OpenWrite out_path) then None
        else if refuses w (WriteText out_path (str_join [10%N] sessions))
        then None
        else if refuses w (PrintLine message) then None
        else Some (str_join [10%N] sessions)
    | Raise _ => None
    end.
Proof.
  unfold output, main, mbind, M_bind.
  destruct (for_loop user_ids [] w) as [[sessions w1]|] eqn:Hloop;
    [|done].
  apply for_loop_world in Hloop as ->.
  unfold open_w, file_write, print. simpl.
  destruct (refuses w (OpenWrite out_path)); [done|]. simpl.
  rewrite lookup_insert_eq. simpl.
  destruct (refuses w (WriteText out_path _)); [done|]. simpl.
  fold message.
  destruct (refuses w (PrintLine message)); [done|]. simpl.
  by rewrite lookup_insert_eq.
Qed.

(** What a round generated, read on the values and on the line. *)
Lemma generated_line w i user_id login_time status :
  Forall plain user_id →
  generated w i login_time status →
  instant login_time = instant (now_at w i) - offset_at w i * 60000000
  ∧ 0 ≤ hour login_time < 24 ∧ 0 ≤ minute login_time < 60
  ∧ strftime_HM login_time = hh_mm (hour login_time) (minute login_time)
  ∧ status ∈ statuses
  ∧ session_line user_id (session_data user_id login_time status)
    = line_text user_id user_id (strftime_HM login_time) status.
Proof.
  intros Hid [Hsub Hst]. unfold login_time_at in Hsub.
  destruct (timedelta_new _ _ _ _ _ _ _) as [offset|] eqn:Hoff; [|done].
  simpl in Hsub.
  apply timedelta_new_ok in Hoff as (_ & _ & Hoff).
  apply datetime_sub_ok in Hsub as (Hsub & _ & Hh & Hm & _).
  apply status_at_statuses in Hst.
  pose proof (strftime_HM_hh_mm login_time Hh Hm) as Hfmt.
  split; [lia|]. do 4 (split; [done|]).
  unfold session_line, line_text.
  rewrite json_dumps_session_data; [done..| |].
  - rewrite Hfmt. by apply hh_mm_plain.
  - revert status Hst. apply Forall_forall. by_evaluation.
Qed.

Lemma line_text_no_newline key user_id login_time status :
  Forall plain key → Forall plain user_id → Forall plain login_time →
  Forall plain status →
  10%N ∉ line_text key user_id login_time status.
Proof.
  intros Hk Hu Ht Hs%plain_not_newline.
  apply plain_not_newline in Hk, Hu, Ht.
  unfold line_text, json_object_text, quoted.
  rewrite !not_elem_of_app.
  split_and!; try done; by_evaluation.
Qed.
End run.

(** ** The file *)

Section file.
Implicit Types (w : World) (i : nat) (content line : pystr).

(** What a round generated, read on the line. *)
Lemma round_line w i user_id login_time status line :
  round w i user_id login_time status line →
  Forall plain user_id
  ∧ Forall plain (strftime_HM login_time)
  ∧ Forall plain status
  ∧ line = line_text user_id user_id (strftime_HM login_time) status.
Proof.
  intros (Hid & Hgen & ->).
  assert (Forall plain user_id) as Hplain.
  { eapply user_ids_plain, list_elem_of_lookup_2, Hid. }
  destruct (generated_line w i user_id login_time status Hplain Hgen)
    as (_ & Hh & Hm & Hfmt & Hst & Hline).
  split; [done|]. split; [rewrite Hfmt; by apply hh_mm_plain|].
  split; [|done].
  clear Hgen Hline. revert status Hst. apply Forall_forall.
  by_evaluation.
Qed.

Lemma round_no_newline w i user_id login_time status line :
  round w i user_id login_time status line → 10%N ∉ line.
Proof.
  intros (Hid & Ht & Hst & ->)%round_line.
  by apply line_text_no_newline.
Qed.

(** A run that ends normally leaves 500 lines in the file, line [i]
    appended by round [i]. *)
Lemma output_ok w content :
  output w = Some content →
  length (lines content) = 500%nat
  ∧ content = str_join [10%N] (lines content)
  ∧ ∀ i line, lines content !! i = Some line →
      ∃ user_id login_time status,
        round w i user_id login_time status line.
Proof.
  rewrite output_unfold.
  destruct (for_loop user_ids [] w) as [[sessions w1]|] eqn:Hloop;
    [|done].
  destruct (refuses w (OpenWrite out_path)); [done|].
  destruct (refuses w (WriteText out_path _)); [done|].
  destruct (refuses w (PrintLine message)); [done|].
  intros [= <-].
  apply for_loop_ok in Hloop as (new & -> & Hlen & Hnew). simpl.
  rewrite length_user_ids in Hlen.
  assert (∀ i line, new !! i = Some line →
            ∃ user_id login_time status,
              round w i user_id login_time status line) as Hround.
  { intros i line Hi.
    destruct (lookup_lt_is_Some_2 user_ids i) as [user_id Hid].
    { rewrite length_user_ids, <- Hlen. by eapply lookup_lt_Some. }
    destruct (Hnew i user_id Hid) as (t & st & Hgen & Hi').
    exists user_id, t, st. split_and!; [done..|congruence]. }
  assert (lines (str_join [10%N] new) = new) as ->; [|done].
  apply str_split_join.
  - intros ->. done.
  - apply Forall_lookup. intros i line Hi.
    destruct (Hround i line Hi) as (user_id & t & st & Hr).
    by eapply round_no_newline.
Qed.

(** The script ends normally when the clock is usable and the operating
    system refuses nothing. *)
Lemma output_usable w :
  sane_clock w → granted w → ∃ content, output w = Some content.
Proof.
  intros Hclock Hio. rewrite output_unfold.
  destruct (for_loop_usable user_ids [] w) as (sessions & w' & ->);
    [by rewrite length_user_ids|].
  rewrite !Hio. by eexists.
Qed.
End file.

(** ** Properties of the generated file *)

Section properties.
Implicit Types (w : World) (i : nat) (content line : pystr).

Lemma output_round w content i :
  output w = Some content → (i < 500)%nat →
  ∃ user_id login_time status line,
    lines content !! i = Some line
    ∧ round w i user_id login_time status line.
Proof.
  intros (Hlen & _ & Hround)%output_ok Hi.
  destruct (lookup_lt_is_Some_2 (lines content) i) as [line Hline];
    [lia|].
  destruct (Hround i line Hline) as (user_id & t & st & Hr).
  by exists user_id, t, st, line.
Qed.

Lemma round_well_formed w i user_id login_time status line :
  round w i user_id login_time status line →
  well_formed_line user_id line.
Proof.
  intros Hr. pose proof Hr as (Hid & Hgen & _).
  apply round_line in Hr as (Hplain & _ & _ & ->).
  destruct (generated_line w i user_id login_time status Hplain Hgen)
    as (_ & Hh & Hm & -> & Hst & _).
  exists (hour login_time), (minute login_time), status.
  split_and!; [lia..|done|done].
Qed.

Lemma line_text_last key user_id login_time status :
  last (line_text key user_id login_time status) = Some 125%N.
Proof.
  unfold line_text, json_object_text.
  change (lit "}") with [125%N].
  rewrite !app_assoc. apply last_snoc.
Qed.

(** The text before the first occurrence of a character is determined
    by the whole text. *)
Lemma app_cons_first_inj (c : N) (l1 l2 r1 r2 : pystr) :
  c ∉ l1 → c ∉ l2 → l1 ++ c :: r1 = l2 ++ c :: r2 → l1 = l2.
Proof.
  revert l2. induction l1 as [|x l1 IH]; intros [|y l2] H1 H2 Heq;
    simpl in Heq.
  - done.
  - injection Heq as <- _. by apply not_elem_of_cons in H2 as [? _].
  - injection Heq as -> _. by apply not_elem_of_cons in H1 as [? _].
  - injection Heq as -> Heq.
    apply not_elem_of_cons in H1 as [_ H1].
    apply not_elem_of_cons in H2 as [_ H2].
    f_equal. by apply IH.
Qed.

Lemma plain_not_arrow (s : pystr) : Forall plain s → arrow ∉ s.
Proof.
  rewrite Forall_forall. intros Hall Hin.
  apply Hall in Hin. unfold plain, arrow in Hin. lia.
Qed.
End properties.

(** C1. The file of a run has exactly 500 lines, line [i] being the one
    round [i] appended for its record; and a run does write the file when
    its clock is usable and the operating system refuses neither the open,
    nor the write, nor the print. *)
Theorem C1_output_has_500_lines (w : World) :
  (sane_clock w → granted w → ∃ content, output w = Some content)
  ∧ ∀ content, output w = Some content →
      length (str_split 10%N content) = 500%nat
      ∧ ∀ i : nat, (i < 500)%nat →
          ∃ user_id login_time status line,
            str_split 10%N content !! i = Some line
            ∧ round w i user_id login_time status line.
Proof.
  split; [apply output_usable|].
  intros content Hout. split.
  - by apply output_ok in Hout as (Hlen & _ & _).
  - intros i Hi. by apply output_round.
Qed.

Lemma C1_output_has_500_lines_witness :
  sane_clock sample_world
  ∧ granted sample_world
  ∧ (∃ content, output sample_world = Some content)
  ∧ output sample_world = Some sample_content
  ∧ length (str_split 10%N sample_content) = 500%nat
  ∧ ∀ i : nat, (i < 500)%nat →
      ∃ user_id login_time status line,
        str_split 10%N sample_content !! i = Some line
        ∧ round sample_world i user_id login_time status line.
Proof.
  assert (sane_clock sample_world) as Hclock by sample_clock.
  assert (granted sample_world) as Hio by (intros call; reflexivity).
  assert (output sample_world = Some sample_content) as Hout by run_sample.
  split; [exact Hclock|]. split; [exact Hio|].
  split; [exact (proj1 (C1_output_has_500_lines sample_world) Hclock Hio)|].
  split; [exact Hout|].
  exact (proj2 (C1_output_has_500_lines sample_world) sample_content Hout).
Defined.

(** C2. The identifiers are [user001] to [user500], in this order and
    without repetition; the record of round [i] has the identifier of rank
    [i] as its [userId], so two records of a run never share one. *)
Theorem C2_user_ids_unique_and_patterned (w : World) (content : pystr) :
  output w = Some content →
  user_ids = (λ n, lit "user" ++ three_digits n) <$> seqZ 1 500
  ∧ NoDup user_ids
  ∧ (∀ (i : nat) line, lines content !! i = Some line →
       ∃ user_id login_time status,
         round w i user_id login_time status line
         ∧ dict_get (session_data user_id login_time status) (lit "userId")
           = Some user_id
         ∧ user_id = lit "user" ++ three_digits (Z.of_nat i + 1))
  ∧ ∀ (i j : nat) id_i id_j t_i t_j st_i st_j line_i line_j,
      round w i id_i t_i st_i line_i → round w j id_j t_j st_j line_j →
      i ≠ j → id_i ≠ id_j.
Proof.
  intros (_ & _ & Hround)%output_ok. split_and!.
  - apply list_eq. intros i.
    destruct (user_ids !! i) as [user_id|] eqn:Hid.
    + apply user_ids_lookup in Hid as [Hi ->].
      rewrite list_lookup_fmap, lookup_seqZ_lt by lia.
      by replace (1 + Z.of_nat i) with (Z.of_nat i + 1) by lia.
    + apply lookup_ge_None in Hid. rewrite length_user_ids in Hid.
      by rewrite list_lookup_fmap, lookup_seqZ_ge by lia.
  - apply user_ids_NoDup.
  - intros i line (user_id & t & st & Hr)%Hround.
    exists user_id, t, st. split_and!; [done|done|].
    destruct Hr as (Hid & _). by apply user_ids_lookup in Hid as [_ ->].
  - intros i j id_i id_j t_i t_j st_i st_j line_i line_j
      (Hi & _) (Hj & _) Hne ->.
    by apply Hne, (NoDup_lookup user_ids i j id_j), Hj;
      [apply user_ids_NoDup|].
Qed.

Lemma C2_user_ids_unique_and_patterned_witness :
  output sample_world = Some sample_content
  ∧ user_ids = (λ n, lit "user" ++ three_digits n) <$> seqZ 1 500
  ∧ NoDup user_ids
  ∧ (∀ (i : nat) line, lines sample_content !! i = Some line →
       ∃ user_id login_time status,
         round sample_world i user_id login_time status line
         ∧ dict_get (session_data user_id login_time status) (lit "userId")
           = Some user_id
         ∧ user_id = lit "user" ++ three_digits (Z.of_nat i + 1))
  ∧ ∀ (i j : nat) id_i id_j t_i t_j st_i st_j line_i line_j,
      round sample_world i id_i t_i st_i line_i →
      round sample_world j id_j t_j st_j line_j →
      i ≠ j → id_i ≠ id_j.
Proof.
  assert (output sample_world = Some sample_content) as Hout by run_sample.
  split; [exact Hout|].
  exact (C2_user_ids_unique_and_patterned sample_world sample_content Hout).
Defined.

(** C3. Whatever the draws, the [status] of the record of each line is
    ["active"], ["inactive"] or ["expired"]. *)
Theorem C3_status_in_vocabulary (w : World) (content : pystr) (i : nat)
    (line : pystr) :
  output w = Some content → lines content !! i = Some line →
  ∃ user_id login_time status,
    round w i user_id login_time status line
    ∧ dict_get (session_data user_id login_time status) (lit "status")
      = Some status
    ∧ status ∈ [lit "active"; lit "inactive"; lit "expired"].
Proof.
  intros (_ & _ & Hround)%output_ok (user_id & t & st & Hr)%Hround.
  exists user_id, t, st. split_and!; [done|done|].
  destruct Hr as (_ & [_ Hst] & _). by apply status_at_statuses in Hst.
Qed.

Lemma C3_status_in_vocabulary_witness :
  output sample_world = Some sample_content
  ∧ lines sample_content !! 0%nat = Some sample_line
  ∧ ∃ user_id login_time status,
      round sample_world 0 user_id login_time status sample_line
      ∧ dict_get (session_data user_id login_time status) (lit "status")
        = Some status
      ∧ status ∈ [lit "active"; lit "inactive"; lit "expired"].
Proof.
  assert (output sample_world = Some sample_content) as Hout by run_sample.
  assert (lines sample_content !! 0%nat = Some sample_line) as Hline
    by run_sample.
  split; [exact Hout|]. split; [exact Hline|].
  exact (C3_status_in_vocabulary sample_world sample_content 0 sample_line
           Hout Hline).
Defined.

(** C4. Whatever the draws and the clock, the [loginTime] of the record of
    each line is [HH:MM], two digits for an hour from 0 to 23, a colon, two
    digits for a minute from 0 to 59. *)
Theorem C4_login_time_is_hh_mm (w : World) (content : pystr) (i : nat)
    (line : pystr) :
  output w = Some content → lines content !! i = Some line →
  ∃ user_id login_time status,
    round w i user_id login_time status line
    ∧ ∃ h m,
        0 ≤ h ≤ 23 ∧ 0 ≤ m ≤ 59
        ∧ dict_get (session_data user_id login_time status)
            (lit "loginTime")
          = Some ([digit (h / 10); digit (h mod 10)] ++ lit ":"
                  ++ [digit (m / 10); digit (m mod 10)]).
Proof.
  intros (_ & _ & Hround)%output_ok (user_id & t & st & Hr)%Hround.
  exists user_id, t, st. split; [done|].
  pose proof Hr as (Hid & Hgen & _).
  apply round_line in Hr as (Hplain & _).
  destruct (generated_line w i user_id t st Hplain Hgen)
    as (_ & Hh & Hm & Hfmt & _).
  exists (hour t), (minute t). split_and!; [lia..|].
  simpl. by rewrite Hfmt.
Qed.

Lemma C4_login_time_is_hh_mm_witness :
  output sample_world = Some sample_content
  ∧ lines sample_content !! 0%nat = Some sample_line
  ∧ ∃ user_id login_time status,
      round sample_world 0 user_id login_time status sample_line
      ∧ ∃ h m,
          0 ≤ h ≤ 23 ∧ 0 ≤ m ≤ 59
          ∧ dict_get (session_data user_id login_time status)
              (lit "loginTime")
            = Some ([digit (h / 10); digit (h mod 10)] ++ lit ":"
                    ++ [digit (m / 10); digit (m mod 10)]).
Proof.
  assert (output sample_world = Some sample_content) as Hout by run_sample.
  assert (lines sample_content !! 0%nat = Some sample_line) as Hline
    by run_sample.
  split; [exact Hout|]. split; [exact Hline|].
  exact (C4_login_time_is_hh_mm sample_world sample_content 0 sample_line
           Hout Hline).
Defined.

(** C5. Each line is [session:<userId> → <json object>]: the record holds
    the members [userId], [loginTime] and [status] in this order, the JSON
    text writes these three members in this order, and the identifier after
    [session:] is the [userId] of the record. *)
Theorem C5_line_format (w : World) (content : pystr) (i : nat)
    (line : pystr) :
  output w = Some content → lines content !! i = Some line →
  ∃ user_id login_time status,
    round w i user_id login_time status line
    ∧ session_data user_id login_time status
      = [(lit "userId", user_id);
         (lit "loginTime", strftime_HM login_time);
         (lit "status", status)]
    ∧ line
      = lit "session:" ++ user_id ++ [32%N; arrow; 32%N]
        ++ json_dumps (session_data user_id login_time status)
    ∧ json_dumps (session_data user_id login_time status)
      = lit "{" ++ quoted (lit "userId") ++ lit ": " ++ quoted user_id
        ++ lit ", " ++ quoted (lit "loginTime") ++ lit ": "
        ++ quoted (strftime_HM login_time)
        ++ lit ", " ++ quoted (lit "status") ++ lit ": " ++ quoted status
        ++ lit "}".
Proof.
  intros (_ & _ & Hround)%output_ok (user_id & t & st & Hr)%Hround.
  exists user_id, t, st. split; [done|]. split; [done|].
  pose proof Hr as (_ & _ & Hline).
  apply round_line in Hr as (Hid & Ht & Hst & _).
  split; [done|]. by apply json_dumps_session_data.
Qed.

Lemma C5_line_format_witness :
  output sample_world = Some sample_content
  ∧ lines sample_content !! 0%nat = Some sample_line
  ∧ ∃ user_id login_time status,
      round sample_world 0 user_id login_time status sample_line
      ∧ session_data user_id login_time status
        = [(lit "userId", user_id);
           (lit "loginTime", strftime_HM login_time);
           (lit "status", status)]
      ∧ sample_line
        = lit "session:" ++ user_id ++ [32%N; arrow; 32%N]
          ++ json_dumps (session_data user_id login_time status)
      ∧ json_dumps (session_data user_id login_time status)
        = lit "{" ++ quoted (lit "userId") ++ lit ": " ++ quoted user_id
          ++ lit ", " ++ quoted (lit "loginTime") ++ lit ": "
          ++ quoted (strftime_HM login_time)
          ++ lit ", " ++ quoted (lit "status") ++ lit ": " ++ quoted status
          ++ lit "}".
Proof.
  assert (output sample_world = Some sample_content) as Hout by run_sample.
  assert (lines sample_content !! 0%nat = Some sample_line) as Hline
    by run_sample.
  split; [exact Hout|]. split; [exact Hline|].
  exact (C5_line_format sample_world sample_content 0 sample_line
           Hout Hline).
Defined.

(** C6. The [loginTime] of the record of line [i] is read on a timestamp
    that is the clock reading of round [i] minus [k] minutes, for an
    integer [k] from 0 to 1440: it is at most 24 hours before the reading
    and never after it. *)
Theorem C6_login_time_within_last_day (w : World) (content : pystr)
    (i : nat) (line : pystr) :
  output w = Some content → lines content !! i = Some line →
  ∃ user_id login_time status,
    round w i user_id login_time status line
    ∧ dict_get (session_data user_id login_time status) (lit "loginTime")
      = Some (strftime_HM login_time)
    ∧ ∃ k,
        0 ≤ k ≤ 1440
        ∧ instant login_time = instant (now_at w i) - k * 60000000
        ∧ 0 ≤ instant (now_at w i) - instant login_time ≤ 86400000000.
Proof.
  intros (_ & _ & Hround)%output_ok (user_id & t & st & Hr)%Hround.
  exists user_id, t, st. split; [done|]. split; [done|].
  pose proof Hr as (_ & Hgen & _).
  apply round_line in Hr as (Hid & _).
  destruct (generated_line w i user_id t st Hid Hgen) as (Hinst & _).
  pose proof (offset_at_range w i).
  exists (offset_at w i). lia.
Qed.

Lemma C6_login_time_within_last_day_witness :
  output sample_world = Some sample_content
  ∧ lines sample_content !! 0%nat = Some sample_line
  ∧ ∃ user_id login_time status,
      round sample_world 0 user_id login_time status sample_line
      ∧ dict_get (session_data user_id login_time status) (lit "loginTime")
        = Some (strftime_HM login_time)
      ∧ ∃ k,
          0 ≤ k ≤ 1440
          ∧ instant login_time
            = instant (now_at sample_world 0) - k * 60000000
          ∧ 0 ≤ instant (now_at sample_world 0) - instant login_time
              ≤ 86400000000.
Proof.
  assert (output sample_world = Some sample_content) as Hout by run_sample.
  assert (lines sample_content !! 0%nat = Some sample_line) as Hline
    by run_sample.
  split; [exact Hout|]. split; [exact Hline|].
  exact (C6_login_time_within_last_day sample_world sample_content 0
           sample_line Hout Hline).
Defined.

(** C7. Two runs can write different texts, but any two runs write the
    same shape: 500 lines each, and at every rank the same identifier, on
    a line of the same format. *)
Theorem C7_two_runs_same_shape :
  (∃ w1 w2 content1 content2,
     output w1 = Some content1 ∧ output w2 = Some content2
     ∧ content1 ≠ content2)
  ∧ ∀ w1 w2 content1 content2,
      output w1 = Some content1 → output w2 = Some content2 →
      length (lines content1) = 500%nat
      ∧ length (lines content2) = 500%nat
      ∧ ∀ i : nat, (i < 500)%nat →
          ∃ user_id line1 line2,
            user_ids !! i = Some user_id
            ∧ lines content1 !! i = Some line1
            ∧ lines content2 !! i = Some line2
            ∧ well_formed_line user_id line1
            ∧ well_formed_line user_id line2.
Proof.
  split.
  - exists sample_world, other_world, sample_content, other_content.
    split_and!; [run_sample..|].
    apply (bool_decide_unpack _ (dec := not_dec (decide_rel (=) _ _))).
    vm_compute. exact I.
  - intros w1 w2 content1 content2 Hout1 Hout2.
    split; [by apply output_ok in Hout1 as (? & _)|].
    split; [by apply output_ok in Hout2 as (? & _)|].
    intros i Hi.
    destruct (output_round w1 content1 i Hout1 Hi)
      as (id1 & t1 & st1 & line1 & Hline1 & Hr1).
    destruct (output_round w2 content2 i Hout2 Hi)
      as (id2 & t2 & st2 & line2 & Hline2 & Hr2).
    pose proof Hr1 as (Hid1 & _). pose proof Hr2 as (Hid2 & _).
    assert (id2 = id1) as -> by congruence.
    exists id1, line1, line2.
    split_and!; [done..| |]; by eapply round_well_formed.
Qed.

Lemma C7_two_runs_same_shape_witness :
  output sample_world = Some sample_content
  ∧ output other_world = Some other_content
  ∧ length (lines sample_content) = 500%nat
  ∧ length (lines other_content) = 500%nat
  ∧ ∀ i : nat, (i < 500)%nat →
      ∃ user_id line1 line2,
        user_ids !! i = Some user_id
        ∧ lines sample_content !! i = Some line1
        ∧ lines other_content !! i = Some line2
        ∧ well_formed_line user_id line1
        ∧ well_formed_line user_id line2.
Proof.
  assert (output sample_world = Some sample_content) as Hout1
    by run_sample.
  assert (output other_world = Some other_content) as Hout2 by run_sample.
  split; [exact Hout1|]. split; [exact Hout2|].
  exact (proj2 C7_two_runs_same_shape sample_world other_world
           sample_content other_content Hout1 Hout2).
Defined.

(** C8. The text of the file is the 500 lines of the rounds joined by
    newlines: it holds 499 newline characters, none of them inside a line,
    and does not end with one. *)
Theorem C8_joined_without_trailing_newline (w : World) (content : pystr) :
  output w = Some content →
  ∃ sessions : list pystr,
    length sessions = 500%nat
    ∧ (∀ (i : nat) line, sessions !! i = Some line →
         (10%N ∉ line)
         ∧ ∃ user_id login_time status,
             round w i user_id login_time status line)
    ∧ content = str_join [10%N] sessions
    ∧ str_count 10%N content = 499%nat
    ∧ str_endswith 10%N content = false.
Proof.
  intros (Hlen & Hjoin & Hround)%output_ok.
  exists (lines content).
  assert (∀ (i : nat) line, lines content !! i = Some line →
            (10%N ∉ line)
            ∧ ∃ user_id login_time status,
                round w i user_id login_time status line) as Hlines.
  { intros i line (user_id & t & st & Hr)%Hround.
    split; [by eapply round_no_newline|eauto]. }
  split; [done|]. split; [done|]. split; [done|]. split.
  - rewrite Hjoin, str_count_join, Hlen; [done|].
    apply Forall_lookup. intros i line Hi. by apply (Hlines i).
  - destruct (lookup_lt_is_Some_2 (lines content) 499) as [line Hline];
      [lia|].
    assert (last (lines content) = Some line) as Hlast.
    { rewrite last_lookup, Hlen. exact Hline. }
    apply Hround in Hline as (user_id & t & st & Hr).
    apply round_line in Hr as (_ & _ & _ & ->).
    unfold str_endswith. rewrite Hjoin.
    erewrite last_str_join; [|exact Hlast|].
    + by rewrite line_text_last.
    + intros Hnil.
      pose proof (line_text_last user_id user_id (strftime_HM t) st) as H.
      by rewrite Hnil in H.
Qed.

Lemma C8_joined_without_trailing_newline_witness :
  output sample_world = Some sample_content
  ∧ ∃ sessions : list pystr,
      length sessions = 500%nat
      ∧ (∀ (i : nat) line, sessions !! i = Some line →
           (10%N ∉ line)
           ∧ ∃ user_id login_time status,
               round sample_world i user_id login_time status line)
      ∧ sample_content = str_join [10%N] sessions
      ∧ str_count 10%N sample_content = 499%nat
      ∧ str_endswith 10%N sample_content = false.
Proof.
  assert (output sample_world = Some sample_content) as Hout by run_sample.
  split; [exact Hout|].
  exact (C8_joined_without_trailing_newline sample_world sample_content
           Hout).
Defined.

(** C9. On each line the identifier after [session:] is the value of the
    [userId] member of the JSON object: the line is built from one
    identifier [key] and the record whose [userId] is [key], its text
    starts with [session:<key> → {"userId": "<key>"], and no other
    identifier can be read before the arrow. *)
Theorem C9_key_matches_user_id (w : World) (content : pystr) (i : nat)
    (line : pystr) :
  output w = Some content → lines content !! i = Some line →
  ∃ key login_time status,
    round w i key login_time status line
    ∧ line = session_line key (session_data key login_time status)
    ∧ dict_get (session_data key login_time status) (lit "userId")
      = Some key
    ∧ (∃ rest,
         line
         = lit "session:" ++ key ++ [32%N; arrow; 32%N] ++ lit "{"
           ++ quoted (lit "userId") ++ lit ": " ++ quoted key ++ rest)
    ∧ ∀ key' rest',
        arrow ∉ key' →
        line = lit "session:" ++ key' ++ [32%N; arrow; 32%N] ++ rest' →
        key' = key.
Proof.
  intros (_ & _ & Hround)%output_ok (key & t & st & Hr)%Hround.
  exists key, t, st. split; [done|].
  pose proof Hr as (_ & _ & Hline). split; [done|]. split; [done|].
  apply round_line in Hr as (Hkey & _ & _ & Htext).
  split.
  - eexists. rewrite Htext. unfold line_text, json_object_text.
    reflexivity.
  - intros key' rest' Hkey'. rewrite Htext. unfold line_text.
    intros Heq%app_inv_head.
    change (key ++ [32%N; arrow; 32%N]
            ++ json_object_text key (strftime_HM t) st)
      with (key ++ [32%N] ++ arrow
            :: (32%N :: json_object_text key (strftime_HM t) st))
      in Heq.
    change (key' ++ [32%N; arrow; 32%N] ++ rest')
      with (key' ++ [32%N] ++ arrow :: (32%N :: rest')) in Heq.
    rewrite !app_assoc in Heq.
    apply app_cons_first_inj in Heq.
    + by apply app_inv_tail in Heq.
    + apply not_elem_of_app. split; [by apply plain_not_arrow|].
      by apply (bool_decide_unpack _).
    + apply not_elem_of_app. split; [done|].
      by apply (bool_decide_unpack _).
Qed.

Lemma C9_key_matches_user_id_witness :
  output sample_world = Some sample_content
  ∧ lines sample_content !! 0%nat = Some sample_line
  ∧ ∃ key login_time status,
      round sample_world 0 key login_time status sample_line
      ∧ sample_line = session_line key (session_data key login_time status)
      ∧ dict_get (session_data key login_time status) (lit "userId")
        = Some key
      ∧ (∃ rest,
           sample_line
           = lit "session:" ++ key ++ [32%N; arrow; 32%N] ++ lit "{"
             ++ quoted (lit "userId") ++ lit ": " ++ quoted key ++ rest)
      ∧ ∀ key' rest',
          arrow ∉ key' →
          sample_line
          = lit "session:" ++ key' ++ [32%N; arrow; 32%N] ++ rest' →
          key' = key.
Proof.
  assert (output sample_world = Some sample_content) as Hout by run_sample.
  assert (lines sample_content !! 0%nat = Some sample_line) as Hline
    by run_sample.
  split; [exact Hout|]. split; [exact Hline|].
  exact (C9_key_matches_user_id sample_world sample_content 0 sample_line
           Hout Hline).
Defined.

(** C10. The lines come in the order of the identifiers: for [n] from 1 to
    500, line [n] of the file is the line of the record whose [userId] is
    [user] followed by [n] on three digits, and its text shows this
    identifier after [session:] and as the [userId] member. *)
Theorem C10_lines_in_ascending_order (w : World) (content : pystr)
    (n : Z) :
  output w = Some content → 1 ≤ n ≤ 500 →
  ∃ user_id login_time status line,
    user_id = lit "user" ++ format_0d 3 n
    ∧ format_0d 3 n = three_digits n
    ∧ lines content !! Z.to_nat (n - 1) = Some line
    ∧ round w (Z.to_nat (n - 1)) user_id login_time status line
    ∧ line = session_line user_id (session_data user_id login_time status)
    ∧ dict_get (session_data user_id login_time status) (lit "userId")
      = Some user_id
    ∧ status ∈ [lit "active"; lit "inactive"; lit "expired"]
    ∧ ∃ h m,
        0 ≤ h ≤ 23 ∧ 0 ≤ m ≤ 59
        ∧ line
          = lit "session:" ++ (lit "user" ++ three_digits n)
            ++ [32%N; arrow; 32%N]
            ++ lit "{" ++ quoted (lit "userId") ++ lit ": "
            ++ quoted (lit "user" ++ three_digits n)
            ++ lit ", " ++ quoted (lit "loginTime") ++ lit ": "
            ++ quoted ([digit (h / 10); digit (h mod 10)] ++ lit ":"
                       ++ [digit (m / 10); digit (m mod 10)])
            ++ lit ", " ++ quoted (lit "status") ++ lit ": "
            ++ quoted status ++ lit "}".
Proof.
  intros Hout Hn.
  destruct (output_round w content (Z.to_nat (n - 1)) Hout)
    as (user_id & t & st & line & Hline & Hr); [lia|].
  exists user_id, t, st, line.
  pose proof Hr as (Hid & Hgen & Hl).
  apply user_ids_lookup in Hid as [_ Hid].
  replace (Z.of_nat (Z.to_nat (n - 1)) + 1) with n in Hid by lia.
  rewrite format_0d_3 by lia.
  do 6 (split; [done|]).
  pose proof Hr as (Hplain & _ & _ & Htext)%round_line.
  destruct (generated_line w _ user_id t st Hplain Hgen)
    as (_ & Hh & Hm & Hfmt & Hst & _).
  split; [exact Hst|].
  exists (hour t), (minute t). split; [lia|]. split; [lia|].
  rewrite Htext, Hfmt, Hid. reflexivity.
Qed.

Lemma C10_lines_in_ascending_order_witness :
  output sample_world = Some sample_content
  ∧ 1 ≤ 1 ≤ 500
  ∧ ∃ user_id login_time status line,
      user_id = lit "user" ++ format_0d 3 1
      ∧ format_0d 3 1 = three_digits 1
      ∧ lines sample_content !! Z.to_nat (1 - 1) = Some line
      ∧ round sample_world (Z.to_nat (1 - 1)) user_id login_time status
          line
      ∧ line
        = session_line user_id (session_data user_id login_time status)
      ∧ dict_get (session_data user_id login_time status) (lit "userId")
        = Some user_id
      ∧ status ∈ [lit "active"; lit "inactive"; lit "expired"]
      ∧ ∃ h m,
          0 ≤ h ≤ 23 ∧ 0 ≤ m ≤ 59
          ∧ line
            = lit "session:" ++ (lit "user" ++ three_digits 1)
              ++ [32%N; arrow; 32%N]
              ++ lit "{" ++ quoted (lit "userId") ++ lit ": "
              ++ quoted (lit "user" ++ three_digits 1)
              ++ lit ", " ++ quoted (lit "loginTime") ++ lit ": "
              ++ quoted ([digit (h / 10); digit (h mod 10)] ++ lit ":"
                         ++ [digit (m / 10); digit (m mod 10)])
              ++ lit ", " ++ quoted (lit "status") ++ lit ": "
              ++ quoted status ++ lit "}".
Proof.
  assert (output sample_world = Some sample_content) as Hout by run_sample.
  assert (1 ≤ 1 ≤ 500) as Hn by lia.
  split; [exact Hout|]. split; [exact Hn|].
  exact (C10_lines_in_ascending_order sample_world sample_content 1
           Hout Hn).
Defined.

(** ** The run in closed form *)

Section closed_form.
Implicit Types (w : World) (i j : nat) (user_id : pystr) (e : exn).

Lemma advance_advance w i j : advance (advance w i) j = advance w (i + j).
Proof. unfold advance. simpl. f_equal; lia. Qed.

Lemma line_at_advance w i j user_id :
  line_at (advance w i) j user_id = line_at w (i + j) user_id.
Proof.
  unfold line_at, login_time_at, now_at, offset_at, status_at, advance.
  simpl.
  replace (ticks w + i + j)%nat with (ticks w + (i + j))%nat by lia.
  replace (draws w + (i + (i + 0)) + (j + (j + 0)))%nat
    with (draws w + (i + j + (i + j + 0)))%nat by lia.
  done.
Qed.

Lemma loop_body_line_at user_id sessions w :
  loop_body user_id sessions w
  = match line_at w 0 user_id with
    | Ok line => Ok (sessions ++ [line], advance w 1)
    | Raise e => Raise e
    end.
Proof.
  rewrite loop_body_unfold. unfold line_at, login_time_at.
  destruct (timedelta_new _ _ _ _ _ _ _) as [offset|]; [|done]. simpl.
  destruct (datetime_sub _ _) as [login_time|]; [|done]. simpl.
  by destruct (status_at w 0).
Qed.

(** The loop appends the lines of its rounds, or raises what the first
    failing round raises. *)
Lemma for_loop_lines_from ids : ∀ i sessions w,
  for_loop ids sessions (advance w i)
  = match lines_from w i ids with
    | Ok new => Ok (sessions ++ new, advance w (i + length ids))
    | Raise e => Raise e
    end.
Proof.
  induction ids as [|id ids IH]; intros i sessions w; simpl.
  - unfold mret, M_ret. by rewrite app_nil_r, Nat.add_0_r.
  - unfold mbind at 1. unfold M_bind.
    rewrite loop_body_line_at, line_at_advance, Nat.add_0_r.
    destruct (line_at w i id) as [line|]; [|done]. simpl.
    rewrite advance_advance, Nat.add_1_r, IH.
    destruct (lines_from w (S i) ids) as [rest|]; [|done]. simpl.
    rewrite <- app_assoc. do 2 f_equal. f_equal. lia.
Qed.

(** The whole script: when the rounds succeed and the operating system
    refuses neither the open, nor the write, nor the print, the file
    receives the joined lines, the message is printed, 500 readings and
    1000 draws are taken. A round that fails comes first; a call that is
    refused raises [OSError]. *)
Lemma main_unfold w :
  main w
  = match lines_from w 0 user_ids with
    | Ok sessions =>
        if refuses w (OpenWrite out_path) then Raise OSError
        else if refuses w (WriteText out_path (str_join [10%N] sessions))
        then Raise OSError
        else if refuses w (PrintLine message) then Raise OSError
        else
          Ok ((), mk_World (entropy w) (draws w + 1000) (wall w)
                    (ticks w + 500)
                    (<[out_path := str_join [10%N] sessions]> (files w))
                    (stdout w ++ [message]) (refuses w))
    | Raise e => Raise e
    end.
Proof.
  unfold main. unfold mbind at 1. unfold M_bind.
  rewrite <- (advance_0 w) at 1. rewrite for_loop_lines_from.
  destruct (lines_from w 0 user_ids) as [sessions|]; [|done].
  rewrite length_user_ids.
  unfold mbind, M_bind, open_w, file_write, print, advance. simpl.
  destruct (refuses w (OpenWrite out_path)); [done|]. simpl.
  rewrite lookup_insert_eq. simpl.
  destruct (refuses w (WriteText out_path _)); [done|]. simpl.
  fold message.
  destruct (refuses w (PrintLine message)); [done|]. simpl.
  rewrite insert_insert_eq. do 2 f_equal.
Qed.

Lemma output_lines_from w :
  output w
  = match lines_from w 0 user_ids with
    | Ok sessions =>
        if refuses w (OpenWrite out_path) then None
        else if refuses w (WriteText out_path (str_join [10%N] sessions))
        then None
        else if refuses w (PrintLine message) then None
        else Some (str_join [10%N] sessions)
    | Raise _ => None
    end.
Proof.
  unfold output. rewrite main_unfold.
  destruct (lines_from w 0 user_ids); [|done].
  destruct (refuses w (OpenWrite out_path)); [done|].
  destruct (refuses w (WriteText out_path _)); [done|].
  destruct (refuses w (PrintLine message)); [done|].
  simpl. by rewrite lookup_insert_eq.
Qed.

Lemma timedelta_new_raise d s us ms m h wk e :
  timedelta_new d s us ms m h wk = Raise e → e = OverflowError.
Proof. unfold timedelta_new. destruct (_ <? _); congruence. Qed.

Lemma datetime_add_raise dt t e :
  datetime_add dt t = Raise e → e = OverflowError.
Proof.
  unfold datetime_add.
  destruct (timedelta_new (ordinal dt) _ _ _ _ _ _) as [d1|e1] eqn:H1;
    simpl.
  - destruct (timedelta_add d1 t) as [d2|e2] eqn:H2; simpl.
    + destruct (_ && _); congruence.
    + intros [= ->]. by eapply timedelta_new_raise.
  - intros [= ->]. by eapply timedelta_new_raise.
Qed.

Lemma datetime_sub_raise dt t e :
  datetime_sub dt t = Raise e → e = OverflowError.
Proof.
  unfold datetime_sub.
  destruct (timedelta_neg t) as [t'|e1] eqn:H1; simpl.
  - apply datetime_add_raise.
  - intros [= ->]. by eapply timedelta_new_raise.
Qed.

Lemma login_time_at_raise w i e :
  login_time_at w i = Raise e → e = OverflowError.
Proof.
  unfold login_time_at.
  destruct (timedelta_new _ _ _ _ _ _ _) as [offset|] eqn:H1; simpl.
  - apply datetime_sub_raise.
  - intros [= ?]; subst. by eapply timedelta_new_raise.
Qed.

(** A round raises when its login time does, and nothing else. *)
Lemma line_at_raise w i user_id e :
  line_at w i user_id = Raise e ↔ login_time_at w i = Raise e.
Proof.
  unfold line_at.
  destruct (login_time_at w i) as [t|e']; simpl;
    [|split; by intros [= ->]].
  destruct (status_at_some w i) as [status ->]. done.
Qed.

Lemma lines_from_raise ids : ∀ w i e,
  lines_from w i ids = Raise e →
  ∃ j, (j < length ids)%nat ∧ login_time_at w (i + j) = Raise e.
Proof.
  induction ids as [|id ids IH]; intros w i e; simpl; [done|].
  destruct (line_at w i id) as [line|e'] eqn:Hline; simpl.
  - destruct (lines_from w (S i) ids) as [rest|e'] eqn:Hrest; [done|].
    simpl. intros [= ->]. apply IH in Hrest as (j & Hj & Hrest).
    exists (S j). split; [lia|].
    by replace (i + S j)%nat with (S i + j)%nat by lia.
  - intros [= ->]. apply line_at_raise in Hline.
    exists 0%nat. split; [lia|]. by rewrite Nat.add_0_r.
Qed.

Lemma lines_from_ok ids : ∀ w i new,
  lines_from w i ids = Ok new →
  ∀ j, (j < length ids)%nat → ∃ t, login_time_at w (i + j) = Ok t.
Proof.
  induction ids as [|id ids IH]; intros w i new; simpl; [lia|].
  destruct (line_at w i id) as [line|e'] eqn:Hline; [|done]. simpl.
  destruct (lines_from w (S i) ids) as [rest|e'] eqn:Hrest; [|done].
  intros _ [|j] Hj.
  - rewrite Nat.add_0_r. unfold line_at in Hline.
    destruct (login_time_at w i); [by eexists|done].
  - replace (i + S j)%nat with (S i + j)%nat by lia.
    eapply IH; [done|lia].
Qed.

(** The lines depend on the world through the readings and the draws of
    their rounds only. *)
Lemma line_at_ext w1 w2 i user_id :
  now_at w1 i = now_at w2 i →
  entropy w1 (draws w1 + 2 * i) = entropy w2 (draws w2 + 2 * i) →
  entropy w1 (draws w1 + 2 * i + 1) = entropy w2 (draws w2 + 2 * i + 1) →
  line_at w1 i user_id = line_at w2 i user_id.
Proof.
  intros Hnow H1 H2.
  unfold line_at, login_time_at, offset_at, status_at.
  by rewrite Hnow, H1, H2.
Qed.

Lemma lines_from_ext ids : ∀ w1 w2 i,
  (∀ j, (j < length ids)%nat →
     ∀ user_id, line_at w1 (i + j) user_id = line_at w2 (i + j) user_id) →
  lines_from w1 i ids = lines_from w2 i ids.
Proof.
  induction ids as [|id ids IH]; intros w1 w2 i Hext; simpl; [done|].
  assert (line_at w1 i id = line_at w2 i id) as ->.
  { rewrite <- (Nat.add_0_r i). apply Hext. simpl. lia. }
  rewrite (IH w1 w2 (S i)); [done|].
  intros j Hj user_id.
  replace (S i + j)%nat with (i + S j)%nat by lia.
  apply Hext. simpl. lia.
Qed.

(** The world after a run that ends normally. *)
Lemma final_world_ok w content :
  output w = Some content →
  ∃ w', final_world w = Some w'
        ∧ ticks w' = (ticks w + 500)%nat ∧ draws w' = (draws w + 1000)%nat
        ∧ wall w' = wall w ∧ entropy w' = entropy w
        ∧ files w' = <[out_path := content]> (files w)
        ∧ stdout w' = stdout w ++ [message]
        ∧ refuses w' = refuses w.
Proof.
  rewrite output_lines_from. unfold final_world. rewrite main_unfold.
  destruct (lines_from w 0 user_ids) as [sessions|]; [|done].
  destruct (refuses w (OpenWrite out_path)); [done|].
  destruct (refuses w (WriteText out_path _)); [done|].
  destruct (refuses w (PrintLine message)); [done|].
  intros [= <-]. by eexists.
Qed.

Lemma lines_from_permissive w ids i :
  lines_from (permissive w) i ids = lines_from w i ids.
Proof. apply lines_from_ext. intros j _ user_id. by apply line_at_ext. Qed.

Lemma output_permissive w :
  output (permissive w)
  = match lines_from w 0 user_ids with
    | Ok sessions => Some (str_join [10%N] sessions)
    | Raise _ => None
    end.
Proof.
  rewrite output_lines_from, lines_from_permissive.
  by destruct (lines_from w 0 user_ids).
Qed.

Lemma output_same_inputs w1 w2 :
  same_inputs w1 w2 → output w1 = output w2.
Proof.
  intros (Hnow & Hdraws & Hio). rewrite !output_lines_from.
  rewrite (lines_from_ext user_ids w1 w2 0);
    [destruct (lines_from w2 0 user_ids); [by rewrite !Hio|done]|].
  rewrite length_user_ids. intros i Hi user_id. simpl.
  apply line_at_ext; [by apply Hnow|apply Hdraws; lia|].
  rewrite <- !Nat.add_assoc. apply Hdraws. lia.
Qed.
End closed_form.

(** ** Further properties of the script *)

(** X1. The script raises [OverflowError] or [OSError] and nothing
    else. It raises [OverflowError] exactly when, in one of the 500
    rounds, the clock reading minus the offset drawn is out of the range
    of [datetime], whatever the operating system would do with the file:
    the loop runs before the file is opened. It raises [OSError] exactly
    when the rounds give a text to write and the operating system refuses
    the open, the write of this text or the print. [randint] and [choice]
    never fail. *)
Theorem X1_raises_overflow_or_os_error (w : World) :
  (∀ e, raised w = Some e → e = OverflowError ∨ e = OSError)
  ∧ (raised w = Some OverflowError
     ↔ ∃ i : nat, (i < 500)%nat
                  ∧ login_time_at w i = Raise OverflowError)
  ∧ (raised w = Some OSError
     ↔ ∃ content,
         output (permissive w) = Some content
         ∧ (refuses w (OpenWrite out_path) = true
            ∨ refuses w (WriteText out_path content) = true
            ∨ refuses w (PrintLine message) = true)).
Proof.
  unfold raised. rewrite main_unfold, output_permissive.
  destruct (lines_from w 0 user_ids) as [sessions|e] eqn:Hlines.
  - assert (¬ ∃ i : nat, (i < 500)%nat
                         ∧ login_time_at w i = Raise OverflowError)
      as Hnone.
    { intros (i & Hi & Hraise).
      destruct (lines_from_ok user_ids w 0 sessions Hlines i) as [t Ht];
        [by rewrite length_user_ids|].
      simpl in Ht. congruence. }
    destruct (refuses w (OpenWrite out_path)) eqn:Hopen;
      [|destruct (refuses w (WriteText out_path (str_join [10%N] sessions)))
          eqn:Hwrite;
        [|destruct (refuses w (PrintLine message)) eqn:Hprint]].
    + split; [intros e [= ?]; subst; by right|].
      split; [split; [done|by intros ?%Hnone]|].
      split; [intros _; eexists; split; [done|by left]|done].
    + split; [intros e [= ?]; subst; by right|].
      split; [split; [done|by intros ?%Hnone]|].
      split; [intros _; eexists; split; [done|by right; left]|done].
    + split; [intros e [= ?]; subst; by right|].
      split; [split; [done|by intros ?%Hnone]|].
      split; [intros _; eexists; split; [done|by right; right]|done].
    + split; [done|].
      split; [split; [done|by intros ?%Hnone]|].
      split; [done|].
      intros (content & [= <-] & [?|[?|?]]); congruence.
  - apply lines_from_raise in Hlines as (i & Hi & Hraise).
    rewrite length_user_ids in Hi. simpl in Hraise.
    pose proof (login_time_at_raise w i e Hraise) as ->.
    split; [intros e' [= ?]; subst; by left|].
    split; [split; [eauto|done]|].
    split; [done|by intros (content & [=] & _)].
Qed.

Lemma X1_raises_overflow_or_os_error_witness :
  raised locked_world = Some OSError
  ∧ raised early_world = Some OverflowError
  ∧ (OSError = OverflowError ∨ OSError = OSError)
  ∧ (∃ i : nat, (i < 500)%nat
                ∧ login_time_at early_world i = Raise OverflowError)
  ∧ ∃ content,
      output (permissive locked_world) = Some content
      ∧ (refuses locked_world (OpenWrite out_path) = true
         ∨ refuses locked_world (WriteText out_path content) = true
         ∨ refuses locked_world (PrintLine message) = true).
Proof.
  assert (raised locked_world = Some OSError) as Hlocked
    by (vm_compute; reflexivity).
  assert (raised early_world = Some OverflowError) as Hearly
    by (vm_compute; reflexivity).
  split; [exact Hlocked|]. split; [exact Hearly|].
  split; [exact (proj1 (X1_raises_overflow_or_os_error locked_world)
                   OSError Hlocked)|].
  split; [exact (proj1 (proj1 (proj2 (X1_raises_overflow_or_os_error
                                        early_world))) Hearly)|].
  exact (proj1 (proj2 (proj2 (X1_raises_overflow_or_os_error
                                locked_world))) Hlocked).
Defined.

(** X2. A run that ends normally takes exactly 500 readings of the clock
    and 1000 draws of the generator, one reading and two draws per
    round. *)
Theorem X2_run_takes_500_readings_1000_draws (w : World)
    (content : pystr) :
  output w = Some content →
  ∃ w', final_world w = Some w'
        ∧ ticks w' = (ticks w + 500)%nat ∧ draws w' = (draws w + 1000)%nat
        ∧ wall w' = wall w ∧ entropy w' = entropy w.
Proof.
  intros (w' & Hw' & Hticks & Hdraws & Hwall & Hentropy & _)%final_world_ok.
  by exists w'.
Qed.

Lemma X2_run_takes_500_readings_1000_draws_witness :
  output used_world = Some used_content
  ∧ ∃ w', final_world used_world = Some w'
          ∧ ticks w' = (ticks used_world + 500)%nat
          ∧ draws w' = (draws used_world + 1000)%nat
          ∧ wall w' = wall used_world ∧ entropy w' = entropy used_world.
Proof.
  assert (output used_world = Some used_content) as Hout by run_sample.
  split; [exact Hout|].
  exact (X2_run_takes_500_readings_1000_draws used_world used_content
           Hout).
Defined.

(** X3. A run that ends normally replaces the text of [user_sessions.txt]
    by the new one, whatever the file held before, and leaves every other
    file as it was. *)
Theorem X3_only_the_output_file_changes (w : World) (content : pystr) :
  output w = Some content →
  ∃ w', final_world w = Some w'
        ∧ files w' = <[out_path := content]> (files w)
        ∧ files w' !! out_path = Some content
        ∧ ∀ path : string, path ≠ out_path →
            files w' !! path = files w !! path.
Proof.
  intros (w' & Hw' & _ & _ & _ & _ & Hfiles & _)%final_world_ok.
  exists w'. split; [done|]. split; [done|]. rewrite Hfiles.
  split; [by rewrite lookup_insert_eq|].
  intros path Hpath. by rewrite lookup_insert_ne.
Qed.

Lemma X3_only_the_output_file_changes_witness :
  output used_world = Some used_content
  ∧ ∃ w', final_world used_world = Some w'
          ∧ files w' = <[out_path := used_content]> (files used_world)
          ∧ files w' !! out_path = Some used_content
          ∧ ∀ path : string, path ≠ out_path →
              files w' !! path = files used_world !! path.
Proof.
  assert (output used_world = Some used_content) as Hout by run_sample.
  split; [exact Hout|].
  exact (X3_only_the_output_file_changes used_world used_content Hout).
Defined.

(** X4. A run that ends normally prints one line, the message, after
    what was printed before. *)
Theorem X4_prints_the_message_once (w : World) (content : pystr) :
  output w = Some content →
  ∃ w', final_world w = Some w'
        ∧ stdout w'
          = stdout w
            ++ [lit "Generated 500 sessions and saved to user_sessions.txt"].
Proof.
  intros (w' & Hw' & _ & _ & _ & _ & _ & Hstdout & _)%final_world_ok.
  by exists w'.
Qed.

Lemma X4_prints_the_message_once_witness :
  output used_world = Some used_content
  ∧ ∃ w', final_world used_world = Some w'
          ∧ stdout w'
            = stdout used_world
              ++ [lit "Generated 500 sessions and saved to user_sessions.txt"].
Proof.
  assert (output used_world = Some used_content) as Hout by run_sample.
  split; [exact Hout|].
  exact (X4_prints_the_message_once used_world used_content Hout).
Defined.

(** X5. What a run writes, and whether it writes, depends on the world
    through the 500 readings and the 1000 draws it takes and through the
    calls the operating system refuses, and on nothing else: not on the
    texts the files hold, not on what was printed, not on the readings and
    draws taken before or left for later. *)
Theorem X5_output_depends_on_inputs_only (w1 w2 : World) :
  same_inputs w1 w2 → output w1 = output w2.
Proof. apply output_same_inputs. Qed.

Lemma X5_output_depends_on_inputs_only_witness :
  same_inputs used_world fresh_world
  ∧ output used_world = output fresh_world.
Proof.
  assert (same_inputs used_world fresh_world) as Hsame.
  { split_and!; intros; reflexivity. }
  split; [exact Hsame|].
  exact (X5_output_depends_on_inputs_only used_world fresh_world Hsame).
Defined.

(** X6. Two runs in a row: the second writes what a single run writes
    from a world 500 readings and 1000 draws further, its text replaces
    the text of the first, and the message is printed twice. *)
Theorem X6_second_run_replaces_the_first (w : World)
    (content1 content2 : pystr) :
  output w = Some content1 →
  output (advance w 500) = Some content2 →
  ∃ w1 w2,
    final_world w = Some w1 ∧ final_world w1 = Some w2
    ∧ output w1 = Some content2
    ∧ files w2 = <[out_path := content2]> (files w)
    ∧ stdout w2 = stdout w ++ [message; message].
Proof.
  intros Hout1 Hout2.
  destruct (final_world_ok w content1 Hout1)
    as (w1 & Hw1 & Hticks & Hdraws & Hwall & Hentropy & Hfiles & Hstdout
        & Hio).
  assert (output w1 = Some content2) as Hout12.
  { rewrite <- Hout2. apply output_same_inputs. split_and!.
    - intros i Hi. unfold now_at, advance. simpl.
      by rewrite Hwall, Hticks.
    - intros j Hj. unfold advance. simpl.
      by rewrite Hentropy, Hdraws.
    - intros call. unfold advance. simpl. by rewrite Hio. }
  destruct (final_world_ok w1 content2 Hout12)
    as (w2 & Hw2 & _ & _ & _ & _ & Hfiles2 & Hstdout2 & _).
  exists w1, w2. split_and!; [done..| |].
  - by rewrite Hfiles2, Hfiles, insert_insert_eq.
  - by rewrite Hstdout2, Hstdout, <- app_assoc.
Qed.

Lemma X6_second_run_replaces_the_first_witness :
  output sample_world = Some sample_content
  ∧ output (advance sample_world 500) = Some second_content
  ∧ ∃ w1 w2,
      final_world sample_world = Some w1 ∧ final_world w1 = Some w2
      ∧ output w1 = Some second_content
      ∧ files w2 = <[out_path := second_content]> (files sample_world)
      ∧ stdout w2 = stdout sample_world ++ [message; message].
Proof.
  assert (output sample_world = Some sample_content) as Hout1
    by run_sample.
  assert (output (advance sample_world 500) = Some second_content)
    as Hout2 by run_sample.
  split; [exact Hout1|]. split; [exact Hout2|].
  exact (X6_second_run_replaces_the_first sample_world sample_content
           second_content Hout1 Hout2).
Defined.

(** ** The login time of a round *)

Section login_time.
Implicit Types (w : World) (i : nat) (dt now : datetime) (t : timedelta).

Lemma instant_duration dt d1 :
  timedelta_new (ordinal dt) (second dt) (microsecond dt) 0
                (minute dt) (hour dt) 0 = Ok d1 →
  duration d1 = instant dt.
Proof.
  intros (_ & _ & Hd1)%timedelta_new_ok. unfold instant. lia.
Qed.

(** Going back by at most a day succeeds as soon as the result is not
    before 0001-01-01 00:00. *)
Lemma datetime_sub_in_range dt t :
  valid_datetime dt → 0 ≤ duration t ≤ 86400000000 →
  0 ≤ td_seconds t < 86400 → 0 ≤ td_microseconds t < 1000000 →
  86400000000 ≤ instant dt - duration t →
  ∃ dt', datetime_sub dt t = Ok dt'.
Proof.
  intros (Hord & Hh & Hm & Hs & Hus) Hdur Hts Htus Hrange.
  unfold MAXORDINAL in Hord.
  unfold datetime_sub, timedelta_neg.
  destruct (timedelta_new_small (- td_days t) (- td_seconds t)
              (- td_microseconds t) 0 0 0 0) as [t' Ht'].
  { unfold duration in Hdur. lia. }
  rewrite Ht'. simpl.
  apply timedelta_new_ok in Ht' as (Hs' & Hus' & Hdur').
  unfold datetime_add.
  destruct (timedelta_new_small (ordinal dt) (second dt) (microsecond dt)
              0 (minute dt) (hour dt) 0) as [d1 Hd1]; [lia|].
  rewrite Hd1. simpl.
  pose proof (instant_duration dt d1 Hd1) as Hinst.
  apply timedelta_new_ok in Hd1 as (Hs1 & Hus1 & Hdur1).
  unfold timedelta_add.
  destruct (timedelta_new_small (td_days d1 + td_days t')
              (td_seconds d1 + td_seconds t')
              (td_microseconds d1 + td_microseconds t') 0 0 0 0)
    as [d2 Hd2].
  { unfold duration in *. lia. }
  rewrite Hd2. simpl.
  apply timedelta_new_ok in Hd2 as (Hs2 & Hus2 & Hdur2).
  unfold duration, instant in *.
  destruct (Z.ltb_spec 0 (td_days d2)); [|lia].
  destruct (Z.leb_spec (td_days d2) MAXORDINAL); [by eexists|].
  unfold MAXORDINAL in *. lia.
Qed.

(** The login time of a round whose clock reading is a valid
    [datetime]. *)
Lemma login_time_at_valid w i :
  valid_datetime (now_at w i) →
  (instant (now_at w i) - offset_at w i * 60000000 < 86400000000
   ∧ login_time_at w i = Raise OverflowError)
  ∨ (86400000000 ≤ instant (now_at w i) - offset_at w i * 60000000
     ∧ ∃ login_time,
         login_time_at w i = Ok login_time
         ∧ valid_datetime login_time
         ∧ instant login_time
           = instant (now_at w i) - offset_at w i * 60000000).
Proof.
  intros Hvalid. unfold login_time_at.
  destruct (timedelta_minutes (offset_at w i) (offset_at_range w i))
    as (offset & -> & Hdur & Hs & Hus). simpl.
  pose proof (offset_at_range w i) as Hk.
  destruct (datetime_sub (now_at w i) offset) as [t|e] eqn:Hsub.
  - right. apply datetime_sub_ok in Hsub as (Hinst & Hord & Hrest).
    assert (86400000000 ≤ instant t) as Hlow.
    { unfold instant. lia. }
    split; [lia|]. exists t. split; [done|]. split; [done|lia].
  - left. pose proof (datetime_sub_raise _ _ _ Hsub) as ->.
    split; [|done].
    destruct (Z.lt_ge_cases
                (instant (now_at w i) - offset_at w i * 60000000)
                86400000000) as [|Hge]; [done|].
    destruct (datetime_sub_in_range (now_at w i) offset) as [t Ht];
      [done|lia|done|done|lia|congruence].
Qed.

(** Two valid datetimes a whole number of minutes apart. *)
Lemma minutes_apart dt dt' k :
  valid_datetime dt → valid_datetime dt' →
  instant dt' = instant dt - k * 60000000 →
  second dt' = second dt ∧ microsecond dt' = microsecond dt
  ∧ minute_of_day dt' = (minute_of_day dt - k) mod 1440
  ∧ ordinal dt' = ordinal dt + (minute_of_day dt - k) / 1440.
Proof.
  unfold valid_datetime, instant, minute_of_day.
  intros (_ & Hh & Hm & Hs & Hus) (_ & Hh' & Hm' & Hs' & Hus') Hinst.
  assert (second dt' = second dt ∧ microsecond dt' = microsecond dt)
    as [Hsec Hmic] by lia.
  split; [done|]. split; [done|]. rewrite Hsec, Hmic in Hinst.
  div_lia.
Qed.

Lemma two_digits_inj n n' :
  0 ≤ n < 100 → 0 ≤ n' < 100 → two_digits n = two_digits n' → n = n'.
Proof.
  intros Hn Hn'. unfold two_digits, digit. intros [= H1 H0].
  apply Z2N.inj in H1, H0; div_lia.
Qed.

Lemma strftime_HM_inj dt dt' :
  valid_datetime dt → valid_datetime dt' →
  strftime_HM dt = strftime_HM dt' ↔ minute_of_day dt = minute_of_day dt'.
Proof.
  intros (_ & Hh & Hm & _) (_ & Hh' & Hm' & _).
  rewrite !strftime_HM_hh_mm by done. unfold hh_mm, minute_of_day.
  split.
  - intros Heq.
    assert (two_digits (hour dt) = two_digits (hour dt')
            ∧ two_digits (minute dt) = two_digits (minute dt'))
      as [H1 H2].
    { unfold two_digits in *. simpl in Heq.
      injection Heq as -> -> -> ->. done. }
    apply two_digits_inj in H1, H2; lia.
  - intros Heq.
    assert (hour dt = hour dt' ∧ minute dt = minute dt') as [-> ->] by lia.
    done.
Qed.
End login_time.



(** X8. For a clock reading that is a valid [datetime], the login time of
    a round that succeeds is a valid [datetime] with the seconds and the
    microseconds of the reading; its minute of the day is the one of the
    reading minus the offset, modulo 1440, the date going back by one day
    when the difference is negative; the [loginTime] of the record shows
    this minute of the day. *)
Theorem X8_login_time_value (w : World) (i : nat) (login_time : datetime) :
  valid_datetime (now_at w i) →
  login_time_at w i = Ok login_time →
  let m := (minute_of_day (now_at w i) - offset_at w i) mod 1440 in
  valid_datetime login_time
  ∧ second login_time = second (now_at w i)
  ∧ microsecond login_time = microsecond (now_at w i)
  ∧ minute_of_day login_time = m
  ∧ ordinal login_time
    = ordinal (now_at w i)
      + (minute_of_day (now_at w i) - offset_at w i) / 1440
  ∧ strftime_HM login_time = hh_mm (m / 60) (m mod 60).
Proof.
  intros Hvalid Hlogin. simpl.
  destruct (login_time_at_valid w i Hvalid)
    as [[_ Hraise]|(_ & t & Ht & Hvalid' & Hinst)]; [congruence|].
  assert (t = login_time) as -> by congruence.
  destruct (minutes_apart _ _ _ Hvalid Hvalid' Hinst)
    as (Hsec & Hmic & Hmod & Hord).
  split_and!; [done..|].
  destruct Hvalid' as (_ & Hh & Hm & _).
  rewrite strftime_HM_hh_mm by done. rewrite <- Hmod.
  unfold minute_of_day. f_equal; div_lia.
Qed.

Lemma X8_login_time_value_witness :
  valid_datetime (now_at used_world 0)
  ∧ login_time_at used_world 0 = Ok (mk_datetime 739000 14 53 2 250)
  ∧ let m := (minute_of_day (now_at used_world 0)
              - offset_at used_world 0) mod 1440 in
    valid_datetime (mk_datetime 739000 14 53 2 250)
    ∧ second (mk_datetime 739000 14 53 2 250)
      = second (now_at used_world 0)
    ∧ microsecond (mk_datetime 739000 14 53 2 250)
      = microsecond (now_at used_world 0)
    ∧ minute_of_day (mk_datetime 739000 14 53 2 250) = m
    ∧ ordinal (mk_datetime 739000 14 53 2 250)
      = ordinal (now_at used_world 0)
        + (minute_of_day (now_at used_world 0)
           - offset_at used_world 0) / 1440
    ∧ strftime_HM (mk_datetime 739000 14 53 2 250)
      = hh_mm (m / 60) (m mod 60).
Proof.
  assert (valid_datetime (now_at used_world 0)) as Hvalid
    by (apply (bool_decide_unpack _); vm_compute; exact I).
  assert (login_time_at used_world 0
          = Ok (mk_datetime 739000 14 53 2 250)) as Hlogin
    by (vm_compute; reflexivity).
  split; [exact Hvalid|]. split; [exact Hlogin|].
  exact (X8_login_time_value used_world 0 _ Hvalid Hlogin).
Defined.

(** X9. [randint(0, 1440)] has 1441 outcomes for 1440 minutes of the day:
    for a valid clock reading, the [loginTime] of a round is the [HH:MM]
    of the reading itself exactly when the offset drawn is 0 or 1440. *)
Theorem X9_offsets_0_and_1440_show_the_same_time (w : World) (i : nat)
    (login_time : datetime) :
  valid_datetime (now_at w i) →
  login_time_at w i = Ok login_time →
  strftime_HM login_time = strftime_HM (now_at w i)
  ↔ offset_at w i = 0 ∨ offset_at w i = 1440.
Proof.
  intros Hvalid Hlogin.
  destruct (login_time_at_valid w i Hvalid)
    as [[_ Hraise]|(_ & t & Ht & Hvalid' & Hinst)]; [congruence|].
  assert (t = login_time) as -> by congruence.
  destruct (minutes_apart _ _ _ Hvalid Hvalid' Hinst)
    as (_ & _ & Hmod & _).
  rewrite strftime_HM_inj by done. rewrite Hmod.
  pose proof (offset_at_range w i).
  destruct Hvalid as (_ & Hh & Hm & _). unfold minute_of_day.
  split; [intros Heq|intros [-> | ->]]; div_lia.
Qed.

Lemma X9_offsets_0_and_1440_show_the_same_time_witness :
  valid_datetime (now_at used_world 0)
  ∧ login_time_at used_world 0 = Ok (mk_datetime 739000 14 53 2 250)
  ∧ (strftime_HM (mk_datetime 739000 14 53 2 250)
     = strftime_HM (now_at used_world 0)
     ↔ offset_at used_world 0 = 0 ∨ offset_at used_world 0 = 1440).
Proof.
  assert (valid_datetime (now_at used_world 0)) as Hvalid
    by (apply (bool_decide_unpack _); vm_compute; exact I).
  assert (login_time_at used_world 0
          = Ok (mk_datetime 739000 14 53 2 250)) as Hlogin
    by (vm_compute; reflexivity).
  split; [exact Hvalid|]. split; [exact Hlogin|].
  exact (X9_offsets_0_and_1440_show_the_same_time used_world 0 _
           Hvalid Hlogin).
Defined.

(** ** Reading a line back *)

Section reading.
Implicit Types (w : World) (i : nat) (s r line content : pystr).

Lemma plain_not_quote s : Forall plain s → 34%N ∉ s.
Proof.
  rewrite Forall_forall. intros Hall Hin.
  apply Hall in Hin. unfold plain in Hin. lia.
Qed.

Lemma plain_printable s : Forall plain s → Forall printable s.
Proof.
  intros Hs. eapply Forall_impl; [exact Hs|].
  unfold plain, printable. lia.
Qed.

(** A quoted text free of quotes is read off the front of a text in one
    way only. *)
Lemma quoted_app_inj s s' r r' :
  34%N ∉ s → 34%N ∉ s' →
  quoted s ++ r = quoted s' ++ r' → s = s' ∧ r = r'.
Proof.
  intros Hs Hs'. unfold quoted. simpl. intros [= Heq].
  rewrite <- !app_assoc in Heq. simpl in Heq.
  pose proof (app_cons_first_inj _ _ _ _ _ Hs Hs' Heq) as ->.
  apply app_inv_head in Heq. by injection Heq as ->.
Qed.

Lemma line_text_inj key user_id login_time status
    key' user_id' login_time' status' :
  Forall plain key → Forall plain user_id → Forall plain login_time →
  Forall plain status →
  Forall plain key' → Forall plain user_id' → Forall plain login_time' →
  Forall plain status' →
  line_text key user_id login_time status
  = line_text key' user_id' login_time' status' →
  key = key' ∧ user_id = user_id' ∧ login_time = login_time'
  ∧ status = status'.
Proof.
  intros Hk Hu Ht Hs Hk' Hu' Ht' Hs'. unfold line_text.
  intros Heq%app_inv_head.
  assert (key ++ [32%N] = key' ++ [32%N]) as Hkey.
  { change (key ++ [32%N; arrow; 32%N]
            ++ json_object_text user_id login_time status)
      with (key ++ [32%N] ++ arrow
            :: (32%N :: json_object_text user_id login_time status))
      in Heq.
    change (key' ++ [32%N; arrow; 32%N]
            ++ json_object_text user_id' login_time' status')
      with (key' ++ [32%N] ++ arrow
            :: (32%N :: json_object_text user_id' login_time' status'))
      in Heq.
    rewrite !app_assoc in Heq.
    apply app_cons_first_inj in Heq; [done|..];
      (apply not_elem_of_app; split;
       [by apply plain_not_arrow|by apply (bool_decide_unpack _)]). }
  apply app_inv_tail in Hkey as <-.
  apply app_inv_head in Heq. apply app_inv_head in Heq.
  unfold json_object_text in Heq.
  do 3 apply app_inv_head in Heq.
  apply quoted_app_inj in Heq as [<- Heq]; [|by apply plain_not_quote..].
  do 3 apply app_inv_head in Heq.
  apply quoted_app_inj in Heq as [<- Heq]; [|by apply plain_not_quote..].
  do 3 apply app_inv_head in Heq.
  apply quoted_app_inj in Heq as [<- Heq]; [|by apply plain_not_quote..].
  done.
Qed.

(** A line is the line of one rank, one identifier, one [loginTime] and
    one status. *)
Lemma round_inj w1 w2 i1 i2 id1 id2 t1 t2 st1 st2 line :
  round w1 i1 id1 t1 st1 line → round w2 i2 id2 t2 st2 line →
  i1 = i2 ∧ id1 = id2 ∧ strftime_HM t1 = strftime_HM t2 ∧ st1 = st2.
Proof.
  intros Hr1 Hr2.
  pose proof Hr1 as (Hid1 & _). pose proof Hr2 as (Hid2 & _).
  apply round_line in Hr1 as (Hp1 & Hpt1 & Hps1 & ->).
  apply round_line in Hr2 as (Hp2 & Hpt2 & Hps2 & Heq).
  apply line_text_inj in Heq as (<- & _ & <- & <-); [|done..].
  split; [|done].
  by apply (NoDup_lookup user_ids i1 i2 id1); [apply user_ids_NoDup|..].
Qed.

Lemma Forall_str_join (P : N → Prop) sep (xs : list pystr) :
  Forall P sep → Forall (Forall P) xs → Forall P (str_join sep xs).
Proof.
  intros Hsep. induction 1 as [|x xs Hx Hxs IH]; [done|].
  destruct xs as [|y xs]; [done|].
  change (str_join sep (x :: y :: xs))
    with (x ++ sep ++ str_join sep (y :: xs)).
  rewrite !Forall_app. auto.
Qed.

Lemma str_count_join_other c sep (xs : list pystr) :
  c ≠ sep → Forall (λ x, str_count c x = 1%nat) xs →
  str_count c (str_join [sep] xs) = length xs.
Proof.
  intros Hne. induction 1 as [|x xs Hx Hxs IH]; [done|].
  destruct xs as [|y xs]; [simpl; by rewrite Hx|].
  change (str_join [sep] (x :: y :: xs))
    with (x ++ [sep] ++ str_join [sep] (y :: xs)).
  rewrite !str_count_app, IH, Hx.
  unfold str_count at 1. rewrite filter_cons_False by congruence.
  done.
Qed.

Lemma length_str_join c (xs : list pystr) :
  xs ≠ [] →
  (length (str_join [c] xs) + 1 = sum_list (length <$> xs) + length xs)%nat.
Proof.
  induction xs as [|x xs IH]; intros Hne; [done|].
  destruct xs as [|y xs]; [simpl; lia|].
  remember (y :: xs) as ys eqn:Hys.
  assert (str_join [c] (x :: ys) = x ++ [c] ++ str_join [c] ys) as ->
    by (by subst).
  assert (ys ≠ []) as Hys' by (by subst).
  specialize (IH Hys'). rewrite !length_app, fmap_cons. simpl. lia.
Qed.

Lemma sum_list_bounds (a b : nat) (ns : list nat) :
  Forall (λ n, a ≤ n ≤ b)%nat ns →
  (a * length ns ≤ sum_list ns ≤ b * length ns)%nat.
Proof.
  induction 1 as [|n ns Hn _ IH]; simpl; [lia|].
  rewrite !Nat.mul_succ_r. lia.
Qed.

Lemma line_text_arrow key user_id login_time status :
  Forall plain key → Forall plain user_id → Forall plain login_time →
  Forall plain status →
  str_count arrow (line_text key user_id login_time status) = 1%nat.
Proof.
  intros Hk%plain_not_arrow Hu%plain_not_arrow Ht%plain_not_arrow
    Hs%plain_not_arrow.
  unfold line_text, json_object_text, quoted.
  rewrite !str_count_app.
  rewrite !(str_count_none arrow key), !(str_count_none arrow user_id),
    !(str_count_none arrow login_time), !(str_count_none arrow status)
    by done.
  reflexivity.
Qed.

Lemma line_text_chars key user_id login_time status :
  Forall plain key → Forall plain user_id → Forall plain login_time →
  Forall plain status →
  Forall (λ c, printable c ∨ c = 10%N ∨ c = arrow)
         (line_text key user_id login_time status).
Proof.
  intros Hk Hu Ht Hs.
  assert (∀ s, Forall plain s →
            Forall (λ c, printable c ∨ c = 10%N ∨ c = arrow) s) as Hplain.
  { intros s Hs'. eapply Forall_impl; [exact Hs'|].
    unfold plain, printable. lia. }
  unfold line_text, json_object_text, quoted.
  rewrite !Forall_app.
  split_and!; try (by apply Hplain); by_evaluation.
Qed.

Lemma line_text_length key user_id login_time status :
  length (line_text key user_id login_time status)
  = (56 + length key + length user_id + length login_time
     + length status)%nat.
Proof.
  unfold line_text, json_object_text, quoted, lit.
  rewrite !length_app, !length_fmap. simpl. lia.
Qed.
End reading.

Section text.
Implicit Types (w : World) (i : nat) (s line content : pystr).

Lemma round_length w i user_id login_time status line :
  round w i user_id login_time status line →
  length line = (75 + length status)%nat
  ∧ (81 ≤ length line ≤ 83)%nat.
Proof.
  intros Hr. pose proof Hr as (Hid & Hgen & _).
  apply round_line in Hr as (Hplain & _ & _ & ->).
  destruct (generated_line w i user_id login_time status Hplain Hgen)
    as (_ & _ & _ & Hfmt & Hst & _).
  apply user_ids_lookup in Hid as [_ ->].
  rewrite line_text_length, Hfmt.
  assert (6 ≤ length status ≤ 8)%nat as Hlen.
  { unfold statuses in Hst.
    repeat (apply elem_of_cons in Hst as [->|Hst]; [simpl; lia|]).
    by apply elem_of_nil in Hst. }
  simpl. lia.
Qed.

(** The bytes of a text of printable characters, newlines and arrows:
    one byte per character and two more per arrow. *)
Lemma utf8_encode_text s :
  Forall (λ c, printable c ∨ c = 10%N ∨ c = arrow) s →
  ∃ bytes,
    utf8_encode s = Some bytes
    ∧ length bytes = (length s + 2 * str_count arrow s)%nat
    ∧ Forall (λ b, b < 256)%N bytes.
Proof.
  induction 1 as [|c s Hc _ (bytes & IH & Hlen & Hbytes)].
  - by exists [].
  - simpl. rewrite IH. simpl.
    change (c :: s) with ([c] ++ s). rewrite str_count_app.
    destruct Hc as [Hc|[->| ->]].
    + unfold printable in Hc. unfold utf8_encode_char.
      destruct (N.ltb_spec c 128); [|lia]. simpl.
      eexists. split; [done|].
      rewrite (str_count_none arrow [c]).
      * split; [simpl; lia|]. apply Forall_cons. split; [lia|done].
      * apply not_elem_of_cons. split; [unfold arrow; lia|].
        apply not_elem_of_nil.
    + eexists. split; [reflexivity|].
      split; [simpl; lia|]. simpl. apply Forall_cons. split; [lia|done].
    + exists ([226; 134; 146]%N ++ bytes). split; [reflexivity|].
      split; [simpl; lia|]. simpl.
      by repeat (apply Forall_cons; split; [lia|]).
Qed.
End text.

(** X10. A line of a run determines its record: if two rounds, of one run
    or of two, append the same line, they have the same rank, the same
    identifier, the same [loginTime] and the same status. *)
Theorem X10_line_determines_record (w1 w2 : World) (i1 i2 : nat)
    (id1 id2 : pystr) (t1 t2 : datetime) (st1 st2 line : pystr) :
  round w1 i1 id1 t1 st1 line → round w2 i2 id2 t2 st2 line →
  i1 = i2 ∧ id1 = id2 ∧ strftime_HM t1 = strftime_HM t2 ∧ st1 = st2.
Proof. apply round_inj. Qed.

Lemma X10_line_determines_record_witness :
  round sample_world 0 (lit "user001") (mk_datetime 739000 10 17 0 250)
    (lit "active") sample_line
  ∧ 0%nat = 0%nat ∧ lit "user001" = lit "user001"
  ∧ strftime_HM (mk_datetime 739000 10 17 0 250)
    = strftime_HM (mk_datetime 739000 10 17 0 250)
  ∧ lit "active" = lit "active".
Proof.
  assert (round sample_world 0 (lit "user001")
            (mk_datetime 739000 10 17 0 250) (lit "active") sample_line)
    as Hr.
  { unfold round, generated. split_and!; vm_compute; reflexivity. }
  split; [exact Hr|].
  exact (X10_line_determines_record sample_world sample_world 0 0 _ _ _ _
           _ _ sample_line Hr Hr).
Defined.

(** X11. No two lines of the file are equal. *)
Theorem X11_lines_are_distinct (w : World) (content : pystr) :
  output w = Some content → NoDup (lines content).
Proof.
  intros (_ & _ & Hround)%output_ok.
  apply NoDup_alt. intros i j line Hi Hj.
  apply Hround in Hi as (id1 & t1 & st1 & Hr1).
  apply Hround in Hj as (id2 & t2 & st2 & Hr2).
  by destruct (round_inj _ _ _ _ _ _ _ _ _ _ _ Hr1 Hr2) as [-> _].
Qed.

Lemma X11_lines_are_distinct_witness :
  output sample_world = Some sample_content
  ∧ NoDup (lines sample_content).
Proof.
  assert (output sample_world = Some sample_content) as Hout by run_sample.
  split; [exact Hout|].
  exact (X11_lines_are_distinct sample_world sample_content Hout).
Defined.

(** X12. The text of the file is made of printable ASCII characters,
    newlines and arrows, and holds exactly 500 arrows, one per line. *)
Theorem X12_text_is_ascii_but_the_arrows (w : World) (content : pystr) :
  output w = Some content →
  Forall (λ c, printable c ∨ c = 10%N ∨ c = arrow) content
  ∧ str_count arrow content = 500%nat
  ∧ ∀ (i : nat) line, lines content !! i = Some line →
      str_count arrow line = 1%nat.
Proof.
  intros (Hlen & Hjoin & Hround)%output_ok.
  assert (∀ (i : nat) line, lines content !! i = Some line →
            str_count arrow line = 1%nat
            ∧ Forall (λ c, printable c ∨ c = 10%N ∨ c = arrow) line)
    as Hlines.
  { intros i line (user_id & t & st & Hr)%Hround.
    apply round_line in Hr as (Hid & Ht & Hst & ->).
    split; [by apply line_text_arrow|by apply line_text_chars]. }
  split; [|split].
  - rewrite Hjoin. apply Forall_str_join.
    + apply Forall_cons. split; [auto|done].
    + apply Forall_lookup. intros i line Hi. by apply (Hlines i).
  - rewrite Hjoin, str_count_join_other, Hlen; [done|done|].
    apply Forall_lookup. intros i line Hi. by apply (Hlines i).
  - intros i line Hi. by apply (Hlines i).
Qed.

Lemma X12_text_is_ascii_but_the_arrows_witness :
  output sample_world = Some sample_content
  ∧ Forall (λ c, printable c ∨ c = 10%N ∨ c = arrow) sample_content
  ∧ str_count arrow sample_content = 500%nat
  ∧ ∀ (i : nat) line, lines sample_content !! i = Some line →
      str_count arrow line = 1%nat.
Proof.
  assert (output sample_world = Some sample_content) as Hout by run_sample.
  split; [exact Hout|].
  exact (X12_text_is_ascii_but_the_arrows sample_world sample_content
           Hout).
Defined.

(** X13. A line has 75 characters plus those of its status, that is 81 to
    83, and the text of the file has 40999 to 41999 characters. *)
Theorem X13_length_of_the_text (w : World) (content : pystr) :
  output w = Some content →
  (∀ (i : nat) line, lines content !! i = Some line →
     ∃ user_id login_time status,
       round w i user_id login_time status line
       ∧ length line = (75 + length status)%nat
       ∧ (81 ≤ length line ≤ 83)%nat)
  ∧ 40999 ≤ Z.of_nat (length content) ≤ 41999.
Proof.
  intros (Hlen & Hjoin & Hround)%output_ok. split.
  - intros i line (user_id & t & st & Hr)%Hround.
    exists user_id, t, st. split; [done|]. by eapply round_length.
  - assert (lines content ≠ []) as Hne by (by intros Hnil; rewrite Hnil in Hlen).
    pose proof (length_str_join 10%N (lines content) Hne) as Hsum.
    rewrite <- Hjoin, Hlen in Hsum.
    assert (Forall (λ n, 81 ≤ n ≤ 83)%nat (length <$> lines content))
      as Hall.
    { apply Forall_fmap, Forall_lookup.
      intros i line (user_id & t & st & Hr)%Hround.
      by eapply round_length. }
    apply sum_list_bounds in Hall. rewrite length_fmap, Hlen in Hall.
    lia.
Qed.

Lemma X13_length_of_the_text_witness :
  output sample_world = Some sample_content
  ∧ (∀ (i : nat) line, lines sample_content !! i = Some line →
       ∃ user_id login_time status,
         round sample_world i user_id login_time status line
         ∧ length line = (75 + length status)%nat
         ∧ (81 ≤ length line ≤ 83)%nat)
  ∧ 40999 ≤ Z.of_nat (length sample_content) ≤ 41999.
Proof.
  assert (output sample_world = Some sample_content) as Hout by run_sample.
  split; [exact Hout|].
  exact (X13_length_of_the_text sample_world sample_content Hout).
Defined.

(** X14. The text of the file always has a UTF-8 encoding, so that the
    write in a file opened with [encoding='utf-8'] cannot fail on a
    character; the encoding takes one byte per character and two more for
    each of the 500 arrows. *)
Theorem X14_utf8_bytes_of_the_text (w : World) (content : pystr) :
  output w = Some content →
  ∃ bytes,
    utf8_encode content = Some bytes
    ∧ length bytes = (length content + 1000)%nat
    ∧ Forall (λ b, b < 256)%N bytes.
Proof.
  intros Hout.
  assert (Forall (λ c, printable c ∨ c = 10%N ∨ c = arrow) content
          ∧ str_count arrow content = 500%nat) as [Hchars Harrows].
  { apply output_ok in Hout as (Hlen & Hjoin & Hround).
    assert (∀ (i : nat) line, lines content !! i = Some line →
              str_count arrow line = 1%nat
              ∧ Forall (λ c, printable c ∨ c = 10%N ∨ c = arrow) line)
      as Hlines.
    { intros i line (user_id & t & st & Hr)%Hround.
      apply round_line in Hr as (Hid & Ht & Hst & ->).
      split; [by apply line_text_arrow|by apply line_text_chars]. }
    split.
    - rewrite Hjoin. apply Forall_str_join.
      + apply Forall_cons. split; [auto|done].
      + apply Forall_lookup. intros i line Hi. by apply (Hlines i).
    - rewrite Hjoin, str_count_join_other, Hlen; [done|done|].
      apply Forall_lookup. intros i line Hi. by apply (Hlines i). }
  destruct (utf8_encode_text content Hchars) as (bytes & Hb & Hlen & Hall).
  exists bytes. split; [done|]. split; [lia|done].
Qed.

Lemma X14_utf8_bytes_of_the_text_witness :
  output sample_world = Some sample_content
  ∧ ∃ bytes,
      utf8_encode sample_content = Some bytes
      ∧ length bytes = (length sample_content + 1000)%nat
      ∧ Forall (λ b, b < 256)%N bytes.
Proof.
  assert (output sample_world = Some sample_content) as Hout by run_sample.
  split; [exact Hout|].
  exact (X14_utf8_bytes_of_the_text sample_world sample_content Hout).
Defined.

(** ** The library functions on any input *)

Section library.
Implicit Types (c n : N) (s : pystr) (d : list (pystr * pystr)).

Lemma hex_digit_printable n : (n < 16)%N → printable (hex_digit n).
Proof.
  unfold hex_digit, printable. intros Hn.
  destruct (N.ltb_spec n 10); lia.
Qed.

Lemma u_escape_printable n : Forall printable (u_escape n).
Proof.
  unfold u_escape. apply Forall_app. split; [by_evaluation|].
  repeat (apply Forall_cons; split;
          [by apply hex_digit_printable, N.mod_upper_bound|]).
  done.
Qed.

Lemma escape_char_printable c : Forall printable (escape_char c).
Proof.
  unfold escape_char.
  repeat match goal with
         | |- context [(c =? ?k)%N] =>
             destruct (N.eqb_spec c k) as [->|_]; [by_evaluation|]
         end.
  destruct ((32 <=? c) && (c <=? 126))%N eqn:Hrange.
  - apply andb_true_iff in Hrange as [H1%N.leb_le H2%N.leb_le].
    apply Forall_cons. split; [done|]. apply Forall_nil_2.
  - destruct (c <? 65536)%N; [apply u_escape_printable|].
    cbv zeta. apply Forall_app. split; apply u_escape_printable.
Qed.

Lemma encode_basestring_ascii_printable s :
  Forall printable (encode_basestring_ascii s).
Proof.
  unfold encode_basestring_ascii. rewrite !Forall_app.
  split; [by_evaluation|]. split; [|by_evaluation].
  apply Forall_concat, Forall_fmap, Forall_forall.
  intros c _. apply escape_char_printable.
Qed.

Lemma dict_set_fresh d k v :
  k ∉ d.*1 → dict_set d k v = d ++ [(k, v)].
Proof.
  induction d as [|[k' v'] d IH]; intros Hk; simpl; [done|].
  rewrite fmap_cons in Hk. apply not_elem_of_cons in Hk as [Hne Hk].
  simpl in Hne. destruct (decide (k' = k)); [congruence|].
  by rewrite IH.
Qed.

Lemma dict_display_from acc (items : list (pystr * pystr)) :
  NoDup (acc.*1 ++ items.*1) →
  foldl (λ d kv, dict_set d kv.1 kv.2) acc items = acc ++ items.
Proof.
  revert acc. induction items as [|[k v] items IH]; intros acc Hnd; simpl.
  - by rewrite app_nil_r.
  - rewrite fmap_cons in Hnd. simpl in Hnd.
    rewrite dict_set_fresh.
    + rewrite IH; [by rewrite <- app_assoc|].
      rewrite fmap_app, <- app_assoc. done.
    + apply NoDup_app in Hnd as (_ & Hdisj & _).
      intros Hin. apply (Hdisj k Hin). left.
Qed.

Lemma dict_get_elem (items : list (pystr * pystr)) k v :
  NoDup items.*1 → (k, v) ∈ items → dict_get items k = Some v.
Proof.
  induction items as [|[k' v'] items IH]; intros Hnd Hin.
  - by apply elem_of_nil in Hin.
  - rewrite fmap_cons in Hnd. apply NoDup_cons in Hnd as [Hk' Hnd].
    simpl in *. apply elem_of_cons in Hin as [[= -> ->]|Hin].
    + by rewrite decide_True.
    + destruct (decide (k' = k)) as [->|]; [|by apply IH].
      exfalso. apply Hk'. apply list_elem_of_fmap. by exists (k, v).
Qed.

Lemma str_join_cons_char c x (h : pystr) (t : list pystr) :
  str_join [c] ((x :: h) :: t) = x :: str_join [c] (h :: t).
Proof. by destruct t. Qed.

Lemma str_join_split c s : str_join [c] (str_split c s) = s.
Proof.
  induction s as [|x s IH]; [done|]. simpl.
  destruct (N.eqb_spec x c) as [->|_].
  - pose proof (str_split_nonempty c s) as Hne.
    destruct (str_split c s) as [|h t]; [done|].
    change (str_join [c] ([] :: h :: t)) with (c :: str_join [c] (h :: t)).
    by rewrite IH.
  - pose proof (str_split_nonempty c s) as Hne.
    destruct (str_split c s) as [|h t]; [done|].
    by rewrite str_join_cons_char, IH.
Qed.
End library.

(** X15. Whatever the keys and the values of a dict of strings,
    [json.dumps] writes printable ASCII only: no control character, no
    character beyond ['~']. *)
Theorem X15_json_dumps_is_printable_ascii (d : list (pystr * pystr)) :
  Forall printable (json_dumps d).
Proof.
  destruct d as [|kv d]; [by_evaluation|].
  change (json_dumps (kv :: d))
    with (lit "{"
          ++ str_join (lit ", ")
               ((λ kv, encode_basestring_ascii kv.1 ++ lit ": "
                       ++ encode_basestring_ascii kv.2) <$> kv :: d)
          ++ lit "}").
  rewrite !Forall_app. split; [by_evaluation|]. split; [|by_evaluation].
  apply Forall_str_join; [by_evaluation|].
  apply Forall_fmap, Forall_forall. intros [k v] _.
  unfold compose. cbn [fst snd]. rewrite !Forall_app.
  split; [apply encode_basestring_ascii_printable|].
  split; [by_evaluation|apply encode_basestring_ascii_printable].
Qed.

(** X16. A dict display whose keys are all different holds its items in
    the order they are written, and each key gives its value back; a key
    that is not there gives nothing. *)
Theorem X16_dict_display_keeps_items (items : list (pystr * pystr)) :
  NoDup items.*1 →
  dict_display items = items
  ∧ (∀ k v, (k, v) ∈ items → dict_get (dict_display items) k = Some v)
  ∧ ∀ k, k ∉ items.*1 → dict_get (dict_display items) k = None.
Proof.
  intros Hnd.
  assert (dict_display items = items) as ->.
  { unfold dict_display. by rewrite dict_display_from. }
  split; [done|]. split.
  - intros k v. by apply dict_get_elem.
  - intros k. clear Hnd.
    induction items as [|[k' v'] items IH]; intros Hk; simpl; [done|].
    rewrite fmap_cons in Hk. apply not_elem_of_cons in Hk as [Hne Hk].
    simpl in Hne. destruct (decide (k' = k)); [congruence|]. by apply IH.
Qed.

Lemma X16_dict_display_keeps_items_witness :
  NoDup [(lit "userId", lit "u"); (lit "loginTime", lit "t");
         (lit "status", lit "s")].*1
  ∧ dict_display [(lit "userId", lit "u"); (lit "loginTime", lit "t");
                  (lit "status", lit "s")]
    = [(lit "userId", lit "u"); (lit "loginTime", lit "t");
       (lit "status", lit "s")]
  ∧ (∀ k v,
       (k, v) ∈ [(lit "userId", lit "u"); (lit "loginTime", lit "t");
                 (lit "status", lit "s")] →
       dict_get (dict_display [(lit "userId", lit "u");
                                (lit "loginTime", lit "t");
                                (lit "status", lit "s")]) k = Some v)
  ∧ ∀ k,
      k ∉ [(lit "userId", lit "u"); (lit "loginTime", lit "t");
           (lit "status", lit "s")].*1 →
      dict_get (dict_display [(lit "userId", lit "u");
                               (lit "loginTime", lit "t");
                               (lit "status", lit "s")]) k = None.
Proof.
  assert (NoDup [(lit "userId", lit "u"); (lit "loginTime", lit "t");
                 (lit "status", lit "s")].*1) as Hnd
    by (apply (bool_decide_unpack _); vm_compute; exact I).
  split; [exact Hnd|].
  exact (X16_dict_display_keeps_items _ Hnd).
Defined.

(** X17. Joining and splitting on one character are inverse of each
    other: a text is the join of its split, and the split of a join gives
    the pieces back when there is a piece at all and none holds the
    separator. *)
Theorem X17_split_inverts_join (c : N) (s : pystr) (xs : list pystr) :
  xs ≠ [] → Forall (λ x, c ∉ x) xs →
  str_join [c] (str_split c s) = s
  ∧ str_split c (str_join [c] xs) = xs.
Proof.
  intros Hne Hall. split; [apply str_join_split|by apply str_split_join].
Qed.

Lemma X17_split_inverts_join_witness :
  [lit "ab"; []; lit "c"] ≠ []
  ∧ Forall (λ x, 10%N ∉ x) [lit "ab"; []; lit "c"]
  ∧ str_join [10%N] (str_split 10%N (lit "x" ++ [10%N] ++ lit "y")) 
    = lit "x" ++ [10%N] ++ lit "y"
  ∧ str_split 10%N (str_join [10%N] [lit "ab"; []; lit "c"])
    = [lit "ab"; []; lit "c"].
Proof.
  assert ([lit "ab"; []; lit "c"] ≠ []) as Hne by discriminate.
  assert (Forall (λ x, 10%N ∉ x) [lit "ab"; []; lit "c"]) as Hall
    by (apply (bool_decide_unpack _); vm_compute; exact I).
  split; [exact Hne|]. split; [exact Hall|].
  exact (X17_split_inverts_join 10%N (lit "x" ++ [10%N] ++ lit "y")
           [lit "ab"; []; lit "c"] Hne Hall).
Defined.
